(** * Test-rig forecasting pipeline: ingestion, split and training components

    A shallow embedding of the three pipeline components

    - [src/components/read_raw_data.py]  (module [ReadRawData]),
    - [src/components/split_data.py]     (module [SplitData]),
    - [src/components/train.py]          (module [Train]),

    together with the Python built-ins they call (module [Py]).

    Conventions of the embedding.
    - A Python [int] is a [Z]; a finite Python [float] is the rational it
      denotes, a [Q]: the binary64 rounding of an arithmetic result is not
      represented.  NaN and the infinities are represented where a float
      parameter is converted to an integer ([Py.float], for split_data),
      not among the values of a table or the losses of an epoch.
    - A Python [str] is a [string]; file names are taken to be ASCII.
    - A statement that may raise returns a [result]; an exception that is
      not caught by the source propagates through every later statement.
    - Files written by a component are fields of an explicit store, which
      keeps what was written before an exception was raised. *)

From Stdlib Require Import List ZArith QArith Qround Qminmax String Ascii Bool Lia Lqa Arith.
Import ListNotations.

Set Implicit Arguments.

(* ===================================================================== *)
(** * Python built-ins                                                    *)
(* ===================================================================== *)

Module Py.

(** The exception classes the components can meet. *)
Inductive exn : Type :=
| ValueError (msg : string)
| IndexError (msg : string)
| KeyError (key : string)
| OverflowError (msg : string)
| ZeroDivisionError (msg : string).

(** Outcome of a statement: a value, or a raised exception. *)
Inductive result (A : Type) : Type :=
| Ok (a : A)
| Raise (e : exn).

Arguments Ok {A} a.
Arguments Raise {A} e.

Definition bind {A B : Type} (m : result A) (k : A -> result B) : result B :=
  match m with
  | Ok a => k a
  | Raise e => Raise e
  end.

Definition is_ok {A : Type} (m : result A) : bool :=
  match m with Ok _ => true | Raise _ => false end.

(** [try: m  except ValueError: h] *)
Definition try_except_ValueError {A : Type} (m : result A) (h : result A) : result A :=
  match m with
  | Raise (ValueError _) => h
  | other => other
  end.

Declare Scope py_scope.
Delimit Scope py_scope with py.
Notation "x <- m ;; k" := (bind m (fun x => k))
  (at level 61, m at next level, right associativity) : py_scope.

(** ** Sequences: [len], [range], indexing and slicing with Python's
       treatment of negative and out-of-range positions. *)

Definition len {A : Type} (l : list A) : Z := Z.of_nat (List.length l).

(** [range(lo, hi)] *)
Definition range (lo hi : Z) : list Z :=
  map (fun k => lo + Z.of_nat k)%Z (seq 0 (Z.to_nat (hi - lo))).

(** [l[i]]: a negative [i] counts from the end; out of range raises. *)
Definition getitem {A : Type} (l : list A) (i : Z) : result A :=
  let j := (if i <? 0 then i + len l else i)%Z in
  if (j <? 0)%Z then Raise (IndexError "index out of range")
  else match nth_error l (Z.to_nat j) with
       | Some a => Ok a
       | None => Raise (IndexError "index out of range")
       end.

(** A slice bound is brought into [0 .. len]: a negative bound counts from
    the end and is clipped at 0, a large one is clipped at [len]. *)
Definition clip_bound (n i : Z) : Z :=
  (if i <? 0 then Z.max (i + n) 0 else Z.min i n)%Z.

(** [l[lo:hi]] *)
Definition slice {A : Type} (l : list A) (lo hi : Z) : list A :=
  let a := clip_bound (len l) lo in
  let b := clip_bound (len l) hi in
  firstn (Z.to_nat (b - a)) (skipn (Z.to_nat a) l).

(** [l[lo:]] *)
Definition slice_from {A : Type} (l : list A) (lo : Z) : list A :=
  skipn (Z.to_nat (clip_bound (len l) lo)) l.

(** [l.count(x)] on a list of integers. *)
Definition count (l : list Z) (x : Z) : Z := Z.of_nat (count_occ Z.eq_dec l x).

(** ** Strings *)

(** [s[lo:]] on a string. *)
Definition str_slice_from (s : string) (lo : Z) : string :=
  string_of_list_ascii (slice_from (list_ascii_of_string s) lo).

(** [s.split(sep)] for a one-character separator: every occurrence of the
    separator cuts, empty pieces are kept, and the result is never empty. *)
Fixpoint split (sep : ascii) (s : string) : list string :=
  match s with
  | EmptyString => [EmptyString]
  | String c r =>
      if Ascii.eqb c sep then EmptyString :: split sep r
      else match split sep r with
           | h :: t => String c h :: t
           | [] => [String c EmptyString]
           end
  end.

(** [s.lstrip(chars)]: drops the leading characters that occur in [chars]. *)
Fixpoint lstrip (chars : list ascii) (s : string) : string :=
  match s with
  | EmptyString => EmptyString
  | String c r => if existsb (Ascii.eqb c) chars then lstrip chars r else s
  end.

(** [s.startswith(p)] *)
Fixpoint startswith (p s : string) : bool :=
  match p, s with
  | EmptyString, _ => true
  | String a p', String b s' => Ascii.eqb a b && startswith p' s'
  | String _ _, EmptyString => false
  end.

(** [p in s] *)
Fixpoint contains (p s : string) : bool :=
  startswith p s ||
  match s with
  | EmptyString => false
  | String _ s' => contains p s'
  end.

(** [s.endswith(p)] *)
Fixpoint endswith (p s : string) : bool :=
  String.eqb p s ||
  match s with
  | EmptyString => false
  | String _ s' => endswith p s'
  end.

(** ** [int(s)] on a string (base 10).

    Surrounding white space is dropped, one sign is allowed, then come
    decimal digits, where a single underscore may stand between two
    digits.  Anything else raises [ValueError]. *)

Definition is_space (c : ascii) : bool :=
  let n := nat_of_ascii c in
  ((9 <=? n) && (n <=? 13) || (28 <=? n) && (n <=? 32))%nat.

Definition is_digit (c : ascii) : bool :=
  let n := nat_of_ascii c in ((48 <=? n) && (n <=? 57))%nat.

Definition digit_value (c : ascii) : Z := Z.of_nat (nat_of_ascii c - 48).

Fixpoint lstrip_space (s : string) : string :=
  match s with
  | EmptyString => EmptyString
  | String c r => if is_space c then lstrip_space r else s
  end.

Fixpoint rstrip_space (s : string) : string :=
  match s with
  | EmptyString => EmptyString
  | String c r =>
      match rstrip_space r with
      | EmptyString => if is_space c then EmptyString else String c EmptyString
      | r' => String c r'
      end
  end.

(** The digits after a first digit, whose value so far is [acc]. *)
Fixpoint more_digits (acc : Z) (s : string) : option Z :=
  match s with
  | EmptyString => Some acc
  | String c r =>
      if is_digit c then more_digits (10 * acc + digit_value c) r
      else if Ascii.eqb c "_" then
        match r with
        | String d r' =>
            if is_digit d then more_digits (10 * acc + digit_value d) r' else None
        | EmptyString => None
        end
      else None
  end.

Definition digits (s : string) : option Z :=
  match s with
  | String c r => if is_digit c then more_digits (digit_value c) r else None
  | EmptyString => None
  end.

Definition int_of_str (s : string) : result Z :=
  let t := rstrip_space (lstrip_space s) in
  let parsed :=
    match t with
    | String "-" r => option_map Z.opp (digits r)
    | String "+" r => digits r
    | _ => digits t
    end in
  match parsed with
  | Some z => Ok z
  | None => Raise (ValueError (String.append "invalid literal for int() with base 10: " s))
  end.

(** ** Floats

    A [float] is a finite value, an infinity or NaN.  Only what the
    components do with one is modelled: the product with an [int] and the
    conversion [int(x)], which truncates towards zero and raises on a
    value that is not finite. *)
Inductive float : Type :=
| Finite (q : Q)
| Infinity (negative : bool)
| NaN.

(** [n * x] for an [int] [n] and a [float] [x]. *)
Definition mul_int_float (n : Z) (x : float) : float :=
  match x with
  | Finite q => Finite (inject_Z n * q)
  | Infinity s =>
      if (n =? 0)%Z then NaN else Infinity (if (0 <? n)%Z then s else negb s)
  | NaN => NaN
  end.

Definition truncate (q : Q) : Z :=
  if Qle_bool 0 q then Qfloor q else Qceiling q.

(** [int(x)] on a float. *)
Definition int_of_float (x : float) : result Z :=
  match x with
  | Finite q => Ok (truncate q)
  | Infinity _ => Raise (OverflowError "cannot convert float infinity to integer")
  | NaN => Raise (ValueError "cannot convert float NaN to integer")
  end.

End Py.

Import Py.
Local Open Scope py_scope.

(* ===================================================================== *)
(** * read_raw_data.py                                                    *)
(* ===================================================================== *)

Module ReadRawData.

(** ** Data frames, as far as the component uses them *)

Inductive cell : Type :=
| CInt (z : Z)
| CRaw (text : string).

(** A row maps column names to cells; a column that is absent from a row
    is a missing value. *)
Definition row : Type := list (string * cell).

Record DataFrame : Type := mkDataFrame {
  columns : list string;
  rows : list row
}.

(** [pd.DataFrame()] *)
Definition empty_frame : DataFrame := mkDataFrame [] [].

Definition has_column (c : string) (cols : list string) : bool :=
  existsb (String.eqb c) cols.

Fixpoint row_set (c : string) (v : cell) (r : row) : row :=
  match r with
  | [] => [(c, v)]
  | (k, w) :: r' => if String.eqb k c then (k, v) :: r' else (k, w) :: row_set c v r'
  end.

Fixpoint row_get (c : string) (r : row) : option cell :=
  match r with
  | [] => None
  | (k, w) :: r' => if String.eqb k c then Some w else row_get c r'
  end.

(** [df[c] = v] with a scalar [v]: the column is created when it is new,
    and every row receives [v]. *)
Definition set_column (c : string) (v : cell) (df : DataFrame) : DataFrame :=
  mkDataFrame
    (if has_column c (columns df) then columns df else columns df ++ [c])
    (map (row_set c v) (rows df)).

(** [pd.concat((a, b), ignore_index=True)]: the rows of [a], then those of
    [b]; the columns of [a], then the new ones of [b]. *)
Definition concat (a b : DataFrame) : DataFrame :=
  mkDataFrame
    (columns a ++ filter (fun c => negb (has_column c (columns a))) (columns b))
    (rows a ++ rows b).

(** ** The directory listing

    An entry of [os.listdir(raw_data_path)] is a file name together with
    what the two pandas readers do on that file: [Some df] when the reader
    returns a frame, [None] when it raises. *)
Record entry : Type := mkEntry {
  file : string;
  as_csv : option DataFrame;
  as_excel : option DataFrame
}.

Definition raw_data_path : string := "gcs/test_rig_data/raw".

(** ** Unit identifier of a file name (lines 55-59) *)

Definition unit_of_file (file : string) : result Z :=
  let name_list := split "-" file in
  try_except_ValueError
    (first <- getitem name_list 0 ;;
     int_of_str (lstrip ["0"; "D"]%char (str_slice_from first (-3))))
    (first <- getitem name_list 0 ;;
     head <- getitem (split "_" first) 0 ;;
     int_of_str (lstrip ["0"; "D"]%char (str_slice_from head (-3)))).

(** ** The scan (lines 29-65) *)

Record scan_state : Type := mkScan {
  final_df : DataFrame;
  units : list Z;
  log : list string
}.

Definition logging_info (msg : string) (st : scan_state) : scan_state :=
  mkScan (final_df st) (units st) (log st ++ [msg]).

(** The [try] block of lines 34-53: the frame that was read, or the
    message logged before [continue]. *)
Definition read_file (e : entry) : DataFrame + string :=
  let f := file e in
  if endswith ".csv" f && contains "RAW" f then
    match as_csv e with
    | Some df => inl df
    | None => inr (String.append "Can't read " (String.append f "."))
    end
  else if (endswith ".xlsx" f || endswith ".xls" f) && contains "RAW" f then
    match as_excel e with
    | Some df => inl df
    | None => inr (String.append "Can't read " (String.append f "."))
    end
  else inr (String.append f " is not a valid raw data file.").

(** One iteration of the [for] loop. *)
Definition scan_step (st : scan_state) (e : entry) : result scan_state :=
  let f := file e in
  let st := logging_info
              (String.append "Reading " (String.append f (String.append " from " raw_data_path)))
              st in
  match read_file e with
  | inr msg => Ok (logging_info msg st)
  | inl current_df =>
      let st := logging_info (String.append f " has been read.") st in
      unit <- unit_of_file f ;;
      let units' := units st ++ [unit] in
      let current_df := set_column "UNIT" (CInt unit) current_df in
      let current_df := set_column "TEST" (CInt (count units' unit)) current_df in
      Ok (mkScan (concat (final_df st) current_df) units' (log st))
  end.

Fixpoint scan (st : scan_state) (es : list entry) : result scan_state :=
  match es with
  | [] => Ok st
  | e :: es' => st' <- scan_step st e ;; scan st' es'
  end.

(** What the component writes: the combined table (to the interim data
    set and to [interim_data.csv]) and the list of its column names. *)
Record output : Type := mkOutput {
  interim_data : DataFrame;
  all_features : list string;
  messages : list string
}.

Definition initial : scan_state := mkScan empty_frame [] [].

Definition read_raw_data (listing : list entry) : result output :=
  st <- scan initial listing ;;
  Ok (mkOutput (final_df st) (columns (final_df st)) (log st)).

(** ** The same rules, read from the specification *)

(** The first segment of a name: what stands before the first separator. *)
Fixpoint first_segment (sep : ascii) (s : string) : string :=
  match s with
  | EmptyString => EmptyString
  | String c r => if Ascii.eqb c sep then EmptyString else String c (first_segment sep r)
  end.

(** The last three characters of a string (the whole string when it is
    shorter). *)
Definition last3 (s : string) : string :=
  substring (String.length s - 3) 3 s.

(** Step 1 of the specification. *)
Definition spec_step1 (file : string) : result Z :=
  int_of_str (lstrip ["0"; "D"]%char (last3 (first_segment "-" file))).

(** Step 2 of the specification. *)
Definition spec_step2 (file : string) : result Z :=
  int_of_str
    (lstrip ["0"; "D"]%char (last3 (first_segment "_" (first_segment "-" file)))).


(** The acceptance rule of the specification: a recognised extension, the
    raw-data marker, and content that parses. *)
Definition spec_extension (f : string) : bool :=
  endswith ".csv" f || endswith ".xlsx" f || endswith ".xls" f.

Definition spec_parses (e : entry) : bool :=
  if endswith ".csv" (file e)
  then match as_csv e with Some _ => true | None => false end
  else match as_excel e with Some _ => true | None => false end.

Definition spec_contributes (e : entry) : bool :=
  spec_extension (file e) && contains "RAW" (file e) && spec_parses e.

(** ** Notions used to state what the scan produces *)

(** The files of a listing that the [try] block reads, in scan order, each
    with the frame read from it. *)
Fixpoint files_read (listing : list entry) : list (string * DataFrame) :=
  match listing with
  | [] => []
  | e :: rest =>
      match read_file e with
      | inl df => (file e, df) :: files_read rest
      | inr _ => files_read rest
      end
  end.

(** A frame with its two label columns. *)
Definition labelled (unit test : Z) (df : DataFrame) : DataFrame :=
  set_column "TEST" (CInt test) (set_column "UNIT" (CInt unit) df).

(** The TEST values of the files of unit [u], in scan order, from the
    (UNIT, TEST) pairs of all files. *)
Definition tests_of_unit (u : Z) (labels : list (Z * Z)) : list Z :=
  map snd (filter (fun p => (fst p =? u)%Z) labels).

(** The (UNIT, TEST) pairs that a counter kept per unit hands out to the
    units [us] met in this order, after the units [seen]. *)
Fixpoint counted (seen us : list Z) : list (Z * Z) :=
  match us with
  | [] => []
  | u :: rest => (u, count (seen ++ [u]) u) :: counted (seen ++ [u]) rest
  end.

(** The table that is built from the files read and their labels. *)
Definition combined (files : list (string * DataFrame)) (labels : list (Z * Z))
    (start : DataFrame) : DataFrame :=
  fold_left concat
    (map (fun fl => labelled (fst (snd fl)) (snd (snd fl)) (snd (fst fl)))
         (combine files labels))
    start.

(** A listing for examples: one frame of two rows, read from four files of
    the units 13, 7, 13, 13, among three entries that are skipped. *)
Definition sample_frame : DataFrame :=
  mkDataFrame ["t"; "p"]%string
              [[("t", CRaw "0.0"); ("p", CRaw "1.5")];
               [("t", CRaw "0.1"); ("p", CRaw "1.7")]]%string.

Definition sample_listing : list entry :=
  [ mkEntry "U013-RAW-1.csv" (Some sample_frame) None;
    mkEntry "notes.txt" None None;
    mkEntry "HYD007-RAW-1.xlsx" None (Some sample_frame);
    mkEntry "U013-RAW-2.csv" (Some sample_frame) None;
    mkEntry "U021-RAW-1.csv" None None;
    mkEntry "U013-run3.csv" (Some sample_frame) None;
    mkEntry "U013_alt-RAW-3.xls" None (Some sample_frame) ].

Definition sample_output : output :=
  match read_raw_data sample_listing with
  | Ok out => out
  | Raise _ => mkOutput empty_frame [] []
  end.

(** Two states with the same table and the same units. *)
Definition same_data (a b : scan_state) : Prop :=
  final_df a = final_df b /\ units a = units b.

Definition same_scans (a b : result scan_state) : Prop :=
  match a, b with
  | Ok x, Ok y => same_data x y
  | Raise e1, Raise e2 => e1 = e2
  | _, _ => False
  end.

(** Two outcomes of a scan that differ at most in the messages logged. *)
Definition same_tables (a b : result output) : Prop :=
  match a, b with
  | Ok x, Ok y => interim_data x = interim_data y /\ all_features x = all_features y
  | Raise e1, Raise e2 => e1 = e2
  | _, _ => False
  end.


End ReadRawData.

(* ===================================================================== *)
(** * split_data.py                                                       *)
(* ===================================================================== *)

Module SplitData.

Section Table.

(** The rows of the processed table; [pd.read_csv(..., index_col=False)]
    labels them 0, 1, ..., n-1. *)
Variable Row : Type.

Definition with_labels (df : list Row) : list (Z * Row) :=
  combine (range 0 (len df)) df.


(** [df.loc[:k]]: a label slice keeps both of its ends, so these are the
    rows whose label is at most [k]. *)
Definition loc_upto (k : Z) (df : list Row) : list Row :=
  map snd (filter (fun p => (fst p <=? k)%Z) (with_labels df)).

(** [df.loc[k:]]: the rows whose label is at least [k]. *)
Definition loc_from (k : Z) (df : list Row) : list Row :=
  map snd (filter (fun p => (k <=? fst p)%Z) (with_labels df)).

(** What the component writes. *)
Record output : Type := mkOutput {
  train_data : list Row;
  test_data : list Row
}.

(** Lines 30-39. *)
Definition split_data (train_data_size : float) (processed_df : list Row)
  : result output :=
  k1 <- int_of_float (mul_int_float (len processed_df) train_data_size) ;;
  let train_df := loc_upto k1 processed_df in
  k2 <- int_of_float (mul_int_float (len processed_df) train_data_size) ;;
  let test_df := loc_from k2 processed_df in
  Ok (mkOutput train_df test_df).

End Table.

End SplitData.

(* ===================================================================== *)
(** * train.py                                                            *)
(* ===================================================================== *)

Module Train.

(** ** The scaler (lines 54-55) *)

(** Modelled from the spec: the scaler is scikit-learn's [MinMaxScaler],
    which is not part of src/.  It is the min-max rule of section 4.4 for
    the feature range (0, 1), computed the way the library does: [fit]
    stores the bounds, the factor [scale_ = 1 / range] and the offset
    [min_ = 0 - data_min * scale_], where a range below ten machine
    epsilons counts as zero and is replaced by 1; [transform] maps [x] to
    [x * scale_ + min_].  The division is the only partial operation. *)
Record MinMaxScaler : Type := mkScaler {
  data_min_ : Q;
  data_max_ : Q;
  data_range_ : Q;
  scale_ : Q;
  min_ : Q
}.

(** The machine epsilon of a binary64 float. *)
Definition eps : Q := 1 # (2 ^ 52).

(** Modelled from the spec: the special case of section 4.4 for a constant
    column, as scikit-learn takes it: a range that is (nearly) zero is
    replaced by 1 before it divides. *)
Definition handle_zeros_in_scale (scale : Q) : Q :=
  if Qlt_le_dec scale (10 * eps) then 1 else scale.

(** Division, which raises on a zero divisor. *)
Definition divide (a b : Q) : result Q :=
  if Qeq_bool b 0 then Raise (ZeroDivisionError "float division by zero")
  else Ok (a / b).

(** Modelled from the spec: [MinMaxScaler.fit] of scikit-learn (section
    4.4, [Scaler.fit]): minimum and maximum of the column, which must not
    be empty, then the factor and the offset. *)
Definition fit (X : list Q) : result MinMaxScaler :=
  match X with
  | [] => Raise (ValueError "Found array with 0 sample(s) while a minimum of 1 is required by MinMaxScaler.")
  | x :: xs =>
      let data_min := fold_left Qmin xs x in
      let data_max := fold_left Qmax xs x in
      let data_range := data_max - data_min in
      scale <- divide (1 - 0) (handle_zeros_in_scale data_range) ;;
      Ok (mkScaler data_min data_max data_range scale (0 - data_min * scale))
  end.

(** Modelled from the spec: [MinMaxScaler.transform] of scikit-learn
    (section 4.4, [Scaler.transform]); [x * scale_ + min_] is
    [(x - min) / (max - min)] when the range is not special-cased. *)
Definition transform (sc : MinMaxScaler) (X : list Q) : list Q :=
  map (fun x => x * scale_ sc + min_ sc) X.

(** Modelled from the spec: [MinMaxScaler.fit_transform] of scikit-learn,
    [fit] followed by [transform] on the same column. *)
Definition fit_transform (X : list Q) : result (MinMaxScaler * list Q) :=
  sc <- fit X ;;
  Ok (sc, transform sc X).

(** ** The supervised windows (lines 58-63) *)

Section Windows.

Variable A : Type.

(** The body of the [for] loop, over the values [todo] that [i] still has
    to take. *)
Fixpoint window_loop (lookback : Z) (scaled_train : list A) (todo : list Z)
    (x_train : list (list A)) (y_train : list A)
  : result (list (list A) * list A) :=
  match todo with
  | [] => Ok (x_train, y_train)
  | i :: todo' =>
      let x_train := x_train ++ [slice scaled_train (i - lookback) i] in
      y <- getitem scaled_train i ;;
      window_loop lookback scaled_train todo' x_train (y_train ++ [y])
  end.

Definition build_windows (lookback : Z) (scaled_train : list A)
  : result (list (list A) * list A) :=
  window_loop lookback scaled_train (range lookback (len scaled_train)) [] [].

(** [np.stack] of a list of windows: the list must not be empty and the
    windows must have one shape. *)
Definition stack_windows (arrays : list (list A)) : result (list (list A)) :=
  match arrays with
  | [] => Raise (ValueError "need at least one array to stack")
  | a :: rest =>
      if forallb (fun b => (List.length b =? List.length a)%nat) rest
      then Ok arrays
      else Raise (ValueError "all input arrays must have the same shape")
  end.

(** [np.stack] of a list of labels. *)
Definition stack_labels (arrays : list A) : result (list A) :=
  match arrays with
  | [] => Raise (ValueError "need at least one array to stack")
  | _ => Ok arrays
  end.

(** The window that starts at position [i]. *)
Definition window_at (L : nat) (scaled : list A) (i : nat) : list A :=
  firstn L (skipn i scaled).

End Windows.

(** ** The fit loop and its two callbacks (lines 64-93) *)

(** What one epoch reports. *)
Record epoch_logs : Type := mkLogs {
  loss : Q;
  root_mean_squared_error : Q;
  val_loss : Q;
  val_root_mean_squared_error : Q
}.

Definition Qltb (a b : Q) : bool := negb (Qle_bool b a).

Section Keras.

(** The parameters of the network ([get_weights] / [set_weights]) and the
    state of the optimizer other than its learning rate. *)
Variables Weights Optim : Type.

(** Lines 64-73: the LSTM layer of [lstm_units] units on the input shape,
    the dense layer and [compile] with the initial learning rate. *)
Variable build : Z -> Z * Z -> Q -> result (Weights * Optim).

(** One epoch of [fit] on [(x_train, y_train)] with the batch size and the
    current learning rate: the first 80 percent of the samples are trained
    on in their order, the last 20 percent are evaluated. *)
Variable run_epoch :
  list (list Q) -> list Q -> Z -> Q -> Weights * Optim ->
  result (Weights * Optim * epoch_logs).

(** Modelled from the spec: [EarlyStopping] is keras's callback, which is
    not part of src/.  Section 4.5: when the validation loss fails to
    improve for [patience] consecutive epochs, halt and restore the
    parameters of the best epoch.  The bookkeeping is the library's: [wait]
    counts the epochs since the last improvement, [best] is the lowest
    loss seen (none before the first epoch), [best_weights] the parameters
    at that epoch. *)
Record EarlyStopping : Type := mkES {
  es_patience : Z;
  es_wait : Z;
  es_stopped_epoch : Z;
  es_best : option Q;
  es_best_weights : option Weights;
  es_best_epoch : Z
}.

(** Modelled from the spec: what keras's [EarlyStopping] takes for an
    improvement with [monitor='val_loss', mode='min'] and no [min_delta]:
    a loss strictly below the best one (any loss, at the first epoch). *)
Definition is_improvement (current : Q) (best : option Q) : bool :=
  match best with
  | None => true
  | Some b => Qltb current b
  end.

(** Modelled from the spec: [EarlyStopping.on_epoch_end] of keras with
    [restore_best_weights=True] (section 4.5, early stopping).  It returns
    the new callback state, the parameters of the model afterwards, and
    whether [model.stop_training] was set.  The callback never stops at
    the first epoch. *)
Definition es_on_epoch_end (cb : EarlyStopping) (epoch : Z) (current : Q)
    (w : Weights) : EarlyStopping * Weights * bool :=
  let best_weights :=
    match es_best_weights cb with None => Some w | bw => bw end in
  let wait := (es_wait cb + 1)%Z in
  let cb :=
    if is_improvement current (es_best cb)
    then mkES (es_patience cb) 0 (es_stopped_epoch cb) (Some current) (Some w) epoch
    else mkES (es_patience cb) wait (es_stopped_epoch cb) (es_best cb)
              best_weights (es_best_epoch cb) in
  if (es_patience cb <=? es_wait cb)%Z && (0 <? epoch)%Z then
    (mkES (es_patience cb) (es_wait cb) epoch (es_best cb)
          (es_best_weights cb) (es_best_epoch cb),
     match es_best_weights cb with Some bw => bw | None => w end,
     true)
  else (cb, w, false).

(** Modelled from the spec: [ReduceLROnPlateau] is keras's callback, not
    part of src/.  Section 4.5: when the validation loss fails to improve
    for [patience // 2] consecutive epochs the learning rate is multiplied
    by 0.75; training goes on.  The library's threshold of improvement is
    [1e-4], its lower bound on the rate is 0 and there is no cool-down. *)
Record ReduceLROnPlateau : Type := mkRL {
  rl_patience : Z;
  rl_wait : Z;
  rl_best : option Q
}.

(** Modelled from the spec: what keras's [ReduceLROnPlateau] takes for an
    improvement in mode [min]: a loss below the best one by more than
    [1e-4]. *)
Definition rl_improvement (current : Q) (best : option Q) : bool :=
  match best with
  | None => true
  | Some b => Qltb current (b - (1 # 10000))
  end.

(** Modelled from the spec: [ReduceLROnPlateau.on_epoch_end] of keras with
    [factor=0.75] (section 4.5, learning-rate reduction).  It returns the
    new callback state and the learning rate afterwards. *)
Definition rl_on_epoch_end (cb : ReduceLROnPlateau) (current : Q) (lr : Q)
  : ReduceLROnPlateau * Q :=
  if rl_improvement current (rl_best cb)
  then (mkRL (rl_patience cb) 0 (Some current), lr)
  else
    let wait := (rl_wait cb + 1)%Z in
    if (rl_patience cb <=? wait)%Z then
      if Qltb 0 lr
      then (mkRL (rl_patience cb) 0 (rl_best cb), Qmax (lr * (3 # 4)) 0)
      else (mkRL (rl_patience cb) wait (rl_best cb), lr)
    else (mkRL (rl_patience cb) wait (rl_best cb), lr).

(** Modelled from the spec: the state of keras's [fit] (section 4.5, the
    Training state).  [history] is what the [History] callback records
    (the logs of each epoch and the learning rate it ran with).  [seen] is
    a ghost trace of the parameters at the end of each epoch, before the
    callbacks ran; no step reads it. *)
Record fit_state : Type := mkFit {
  weights : Weights;
  optim : Optim;
  lr : Q;
  stop_training : bool;
  early_stopping : EarlyStopping;
  reduce_lr : ReduceLROnPlateau;
  history : list (epoch_logs * Q);
  seen : list Weights
}.

Section Fit.

Variables (x_train : list (list Q)) (y_train : list Q) (batch_size : Z).

(** Modelled from the spec: the epoch loop of keras's [fit] (section 4.5:
    up to [epochs] passes, the two callbacks observe the validation loss
    of each, in the order of the [callbacks] list, and the loop ends when
    [stop_training] is set).  [n] epochs are left to run, the next one is
    [epoch]. *)
Fixpoint epochs_loop (n : nat) (epoch : Z) (st : fit_state) : result fit_state :=
  match n with
  | O => Ok st
  | S n' =>
      r <- run_epoch x_train y_train batch_size (lr st) (weights st, optim st) ;;
      let '(w, o, logs) := r in
      let '(es, w', stop) :=
        es_on_epoch_end (early_stopping st) epoch (val_loss logs) w in
      let '(rl, lr') := rl_on_epoch_end (reduce_lr st) (val_loss logs) (lr st) in
      let st' := mkFit w' o lr' stop es rl
                       (history st ++ [(logs, lr st)]) (seen st ++ [w]) in
      if stop then Ok st' else epochs_loop n' (epoch + 1) st'
  end.

(** Lines 74-93: [forecaster.fit(..., epochs=epochs,
    callbacks=[EarlyStopping(patience=patience, ...),
    ReduceLROnPlateau(patience=patience // 2, ...)])], the loop started on
    fresh callbacks. *)
Definition fit_model (epochs patience : Z) (learning_rate : Q)
    (model : Weights * Optim) : result fit_state :=
  epochs_loop (Z.to_nat epochs) 0
    (mkFit (fst model) (snd model) learning_rate false
           (mkES patience 0 0 None None 0)
           (mkRL (patience / 2) 0 None)
           [] []).

End Fit.

(** ** Notions used to state what the callbacks do *)

(** The validation losses of the epochs that ran, in order. *)
Definition val_losses (st : fit_state) : list Q :=
  map (fun h => val_loss (fst h)) (history st).

(** A pass over the losses that keeps the best loss so far, the epoch
    that reached it and the number of the next epoch. *)
Definition track (t : option Q * nat * nat) (v : Q) : option Q * nat * nat :=
  let '(best, best_epoch, next) := t in
  if is_improvement v best then (Some v, next, S next) else (best, best_epoch, S next).

Definition tracked (vs : list Q) : option Q * nat * nat :=
  fold_left track vs (None, 0%nat, 0%nat).

(** The lowest loss among [vs] (none when no epoch ran). *)
Definition best_so_far (vs : list Q) : option Q := fst (fst (tracked vs)).

(** The first epoch that reached the lowest loss among [vs]. *)
Definition best_epoch_of (vs : list Q) : nat := snd (fst (tracked vs)).

(** Epoch [j] did not improve on the best loss of the epochs before it. *)
Definition non_improving (vs : list Q) (j : nat) : Prop :=
  exists v, nth_error vs j = Some v /\
            is_improvement v (best_so_far (firstn j vs)) = false.

(** The state after the callbacks of one epoch. *)
Definition after_epoch (epoch : Z) (st : fit_state)
    (r : Weights * Optim * epoch_logs) : fit_state :=
  let '(w, o, logs) := r in
  let '(es, w', stop) := es_on_epoch_end (early_stopping st) epoch (val_loss logs) w in
  let '(rl, lr') := rl_on_epoch_end (reduce_lr st) (val_loss logs) (lr st) in
  mkFit w' o lr' stop es rl (history st ++ [(logs, lr st)]) (seen st ++ [w]).

(** What the early-stopping callback holds after the epochs of a
    history, and what it has done. *)
Record fit_inv (p : Z) (st : fit_state) : Prop := mkInv {
  inv_seen : List.length (seen st) = List.length (val_losses st);
  inv_patience : es_patience (early_stopping st) = p;
  inv_best : es_best (early_stopping st) = best_so_far (val_losses st);
  inv_best_epoch :
    es_best_epoch (early_stopping st) = Z.of_nat (best_epoch_of (val_losses st));
  inv_best_weights :
    es_best_weights (early_stopping st)
    = match val_losses st with
      | [] => None
      | _ => nth_error (seen st) (best_epoch_of (val_losses st))
      end;
  inv_wait :
    es_wait (early_stopping st)
    = Z.of_nat (List.length (val_losses st) - 1 - best_epoch_of (val_losses st));
  inv_running :
    stop_training st = false ->
    (Z.of_nat (List.length (val_losses st) - 1 - best_epoch_of (val_losses st)) < p)%Z;
  inv_stopped :
    stop_training st = true ->
    nth_error (seen st) (best_epoch_of (val_losses st)) = Some (weights st) /\
    (p <= Z.of_nat (List.length (val_losses st) - 1 - best_epoch_of (val_losses st)))%Z /\
    es_stopped_epoch (early_stopping st)
    = Z.of_nat (List.length (val_losses st) - 1);
  inv_before :
    forall m, (1 <= m < List.length (val_losses st))%nat ->
    (Z.of_nat (m - 1 - best_epoch_of (firstn m (val_losses st))) < p)%Z
}.

(** ** The component *)

Record params : Type := mkParams {
  feature : string;
  lookback : Z;
  lstm_units : Z;
  learning_rate : Q;
  epochs : Z;
  batch_size : Z;
  patience : Z
}.

(** The three output artifacts: the file each one holds (if written) and
    the feature recorded in its metadata (if set). *)
Record artifacts : Type := mkArtifacts {
  scaler_model : option MinMaxScaler;
  scaler_feature : option string;
  keras_model : option Weights;
  keras_feature : option string;
  metrics : option (list (epoch_logs * Q));
  metrics_feature : option string
}.

Definition no_artifacts : artifacts := mkArtifacts None None None None None None.

(** The store after the scaler was written and nothing else. *)
Definition only_scaler (feature : string) (sc : MinMaxScaler) : artifacts :=
  mkArtifacts (Some sc) (Some feature) None None None None.

(** A statement of [train]: it may write artifacts, and it returns or
    raises; what was written before an exception stays written. *)
Definition stmt (A : Type) : Type := artifacts -> artifacts * result A.

Definition sbind {A B : Type} (m : stmt A) (k : A -> stmt B) : stmt B :=
  fun s => match m s with
           | (s', Ok a) => k a s'
           | (s', Raise e) => (s', Raise e)
           end.

Definition eval {A : Type} (r : result A) : stmt A := fun s => (s, r).

Definition write (f : artifacts -> artifacts) : stmt unit := fun s => (f s, Ok tt).

Notation "x <~ m ;; k" := (sbind m (fun x => k))
  (at level 61, m at next level, right associativity).

(** [train_df[feature]] on the table read from the train data set. *)
Fixpoint column (train_df : list (string * list Q)) (feature : string)
  : result (list Q) :=
  match train_df with
  | [] => Raise (KeyError feature)
  | (name, values) :: rest =>
      if String.eqb name feature then Ok values else column rest feature
  end.

(** Lines 52-101. *)
Definition train (p : params) (train_df : list (string * list Q)) : stmt unit :=
  train_data <~ eval (column train_df (feature p)) ;;
  fitted <~ eval (fit_transform train_data) ;;
  let '(scaler, scaled_train) := fitted in
  _ <~ write (fun s => mkArtifacts (scaler_model s) (Some (feature p)) (keras_model s)
                         (keras_feature s) (metrics s) (metrics_feature s)) ;;
  _ <~ write (fun s => mkArtifacts (Some scaler) (scaler_feature s) (keras_model s)
                         (keras_feature s) (metrics s) (metrics_feature s)) ;;
  xy <~ eval (build_windows (lookback p) scaled_train) ;;
  let '(x_train, y_train) := xy in
  x_train <~ eval (stack_windows x_train) ;;
  y_train <~ eval (stack_labels y_train) ;;
  forecaster <~ eval (build (lstm_units p) (len (hd [] x_train), 1%Z) (learning_rate p)) ;;
  fitted <~ eval (fit_model x_train y_train (batch_size p) (epochs p) (patience p)
                            (learning_rate p) forecaster) ;;
  _ <~ write (fun s => mkArtifacts (scaler_model s) (scaler_feature s) (keras_model s)
                         (keras_feature s) (Some (history fitted)) (metrics_feature s)) ;;
  _ <~ write (fun s => mkArtifacts (scaler_model s) (scaler_feature s) (keras_model s)
                         (keras_feature s) (metrics s) (Some (feature p))) ;;
  _ <~ write (fun s => mkArtifacts (scaler_model s) (scaler_feature s) (keras_model s)
                         (Some (feature p)) (metrics s) (metrics_feature s)) ;;
  write (fun s => mkArtifacts (scaler_model s) (scaler_feature s) (Some (weights fitted))
                    (keras_feature s) (metrics s) (metrics_feature s)).

End Keras.

Arguments no_artifacts {Weights}.
Arguments only_scaler {Weights} feature sc.

(** ** A small instance for examples

    The parameters are a counter of the epochs trained; epoch [k] reports
    the [k]-th of a fixed list of losses. *)
Definition toy_losses : list Q := [5; 4; 3; 4; 5; 2; 1].

Definition toy_build (_ : Z) (_ : Z * Z) (_ : Q) : result (nat * unit) :=
  Ok (0%nat, tt).

Definition toy_run_epoch (_ : list (list Q)) (_ : list Q) (_ : Z) (_ : Q)
    (model : nat * unit) : result (nat * unit * epoch_logs) :=
  let v := nth (fst model) toy_losses 1 in
  Ok (S (fst model), tt, mkLogs v v v v).

(** Ten epochs at most and a patience of two, on the losses above. *)
Definition toy_fit : result (fit_state nat unit) :=
  fit_model toy_run_epoch [] [] 4 10 2 (1 # 100) (0%nat, tt).

Definition toy_fitted : fit_state nat unit :=
  match toy_fit with
  | Ok st => st
  | Raise _ => mkFit 0%nat tt 0 false (mkES 0 0 0 None None 0) (mkRL 0 0 None) [] []
  end.

Definition toy_params (lookback : Z) : params :=
  mkParams "pressure" lookback 8 (1 # 100) 10 4 2.

Definition toy_table (values : list Q) : list (string * list Q) :=
  [("time"%string, map (fun _ => 0) values); ("pressure"%string, values)].

(** The scaler fitted on the values 1, 2, 3, 4 and the scaled values. *)
Definition toy_scaled : MinMaxScaler * list Q :=
  match fit_transform [1; 2; 3; 4] with
  | Ok r => r
  | Raise _ => (mkScaler 0 0 0 0 0, [])
  end.

End Train.

(* ===================================================================== *)
(** * Facts about the built-ins                                           *)
(* ===================================================================== *)

Unset Implicit Arguments.

Module PyFacts.

Lemma len_nonneg (A : Type) (l : list A) : (0 <= len l)%Z.
Proof. unfold len. lia. Qed.

(** Within the bounds an index is a position. *)
Lemma getitem_in_range (A : Type) (l : list A) (i : Z) :
  (0 <= i < len l)%Z ->
  exists a, getitem l i = Ok a /\ nth_error l (Z.to_nat i) = Some a.
Proof.
  intros H. unfold getitem.
  destruct (Z.ltb_spec i 0) as [Hneg | _]; [lia |].
  destruct (Z.ltb_spec i 0) as [Hneg | _]; [lia |].
  destruct (nth_error l (Z.to_nat i)) as [a |] eqn:E.
  - exists a. split; reflexivity.
  - apply nth_error_None in E. unfold len in H. lia.
Qed.

(** Within the bounds a slice is a sub-list. *)
Lemma slice_in_range (A : Type) (l : list A) (lo hi : Z) :
  (0 <= lo <= hi)%Z -> (hi <= len l)%Z ->
  slice l lo hi = firstn (Z.to_nat (hi - lo)) (skipn (Z.to_nat lo) l).
Proof.
  intros H1 H2. unfold slice, clip_bound.
  destruct (Z.ltb_spec lo 0) as [Hneg | _]; [lia |].
  destruct (Z.ltb_spec hi 0) as [Hneg | _]; [lia |].
  rewrite !Z.min_l by lia. reflexivity.
Qed.

Lemma range_empty (lo hi : Z) : (hi <= lo)%Z -> range lo hi = [].
Proof.
  intros H. unfold range. replace (Z.to_nat (hi - lo)) with 0%nat by lia. reflexivity.
Qed.

Lemma skipn_cons_nth (A : Type) (l : list A) (k : nat) (a : A) :
  nth_error l k = Some a -> skipn k l = a :: skipn (S k) l.
Proof.
  revert l. induction k as [| k IH]; intros [| b l] H; simpl in *; try discriminate.
  - inversion H. reflexivity.
  - apply IH. exact H.
Qed.

Lemma firstn_snoc_nth (A : Type) (l : list A) (k : nat) (a : A) :
  nth_error l k = Some a -> firstn (S k) l = firstn k l ++ [a].
Proof.
  revert l. induction k as [| k IH]; intros [| b l] H; simpl in *; try discriminate.
  - inversion H. reflexivity.
  - f_equal. apply IH. exact H.
Qed.

End PyFacts.

(* ===================================================================== *)
(** * Facts about read_raw_data.py                                        *)
(* ===================================================================== *)

Module ReadRawDataFacts.

Import ReadRawData PyFacts.

(** ** The unit of a file name *)

Lemma split_starts_with_first_segment (sep : ascii) (s : string) :
  exists rest, split sep s = first_segment sep s :: rest.
Proof.
  induction s as [| c r [rest IH]]; simpl.
  - exists []. reflexivity.
  - destruct (Ascii.eqb c sep).
    + eexists. reflexivity.
    + rewrite IH. eexists. reflexivity.
Qed.

Lemma getitem_head (A : Type) (a : A) (l : list A) : getitem (a :: l) 0 = Ok a.
Proof. reflexivity. Qed.

Lemma length_list_ascii (s : string) :
  List.length (list_ascii_of_string s) = String.length s.
Proof. induction s as [| c r IH]; simpl; congruence. Qed.

Lemma substring_as_list (n m : nat) (s : string) :
  substring n m s
  = string_of_list_ascii (firstn m (skipn n (list_ascii_of_string s))).
Proof.
  revert m s. induction n as [| n IHn]; intros m s.
  - revert s. induction m as [| m IHm]; intros s.
    + destruct s; reflexivity.
    + destruct s as [| c r]; simpl; [reflexivity |]. rewrite IHm. reflexivity.
  - destruct s as [| c r]; simpl.
    + destruct m; reflexivity.
    + apply IHn.
Qed.

(** [s[-3:]] is the last three characters of [s]. *)
Lemma slice_from_minus_3 (s : string) : str_slice_from s (-3) = last3 s.
Proof.
  unfold str_slice_from, slice_from, last3, clip_bound, len.
  rewrite substring_as_list, length_list_ascii. cbn [Z.ltb Z.compare].
  replace (Z.to_nat (Z.max (-3 + Z.of_nat (String.length s)) 0))
    with (String.length s - 3)%nat by lia.
  rewrite firstn_all2; [reflexivity |].
  rewrite length_skipn, length_list_ascii. lia.
Qed.

Lemma unit_of_file_unfolded (f : string) :
  unit_of_file f
  = try_except_ValueError (spec_step1 f) (spec_step2 f).
Proof.
  unfold unit_of_file, spec_step1, spec_step2.
  destruct (split_starts_with_first_segment "-" f) as [rest ->].
  rewrite getitem_head. cbn [bind].
  destruct (split_starts_with_first_segment "_" (first_segment "-" f)) as [rest' ->].
  rewrite getitem_head. cbn [bind].
  rewrite !slice_from_minus_3. reflexivity.
Qed.



(** A name whose first segment needs the second step. *)
Example unit_by_second_step : unit_of_file "U013_alt-RAW-3.xls" = Ok 13%Z.
Proof. reflexivity. Qed.

(** A name that neither step can parse. *)
Example unit_of_unlabelled_name :
  is_ok (unit_of_file "readme_RAW.csv") = false.
Proof. reflexivity. Qed.


(** ** The TEST counter *)

Lemma row_get_set_same (c : string) (v : cell) (r : row) :
  row_get c (row_set c v r) = Some v.
Proof.
  induction r as [| [k w] r IH]; simpl.
  - rewrite String.eqb_refl. reflexivity.
  - destruct (String.eqb k c) eqn:E; simpl; rewrite E; [reflexivity | exact IH].
Qed.

Lemma row_get_set_other (c c' : string) (v : cell) (r : row) :
  c <> c' -> row_get c (row_set c' v r) = row_get c r.
Proof.
  intros Hne. induction r as [| [k w] r IH]; simpl.
  - destruct (String.eqb_spec c' c); [congruence | reflexivity].
  - destruct (String.eqb_spec k c') as [-> | Hk]; simpl.
    + destruct (String.eqb_spec c' c); [congruence | reflexivity].
    + destruct (String.eqb_spec k c); [reflexivity | exact IH].
Qed.

(** Every row of a labelled frame carries the two labels. *)
Lemma labelled_rows (u t : Z) (df : DataFrame) (r : row) :
  In r (rows (labelled u t df)) ->
  row_get "UNIT" r = Some (CInt u) /\ row_get "TEST" r = Some (CInt t).
Proof.
  unfold labelled, set_column. cbn [rows]. rewrite map_map. intros H.
  apply in_map_iff in H. destruct H as [r0 [<- _]]. split.
  - rewrite row_get_set_other by discriminate. apply row_get_set_same.
  - apply row_get_set_same.
Qed.

Lemma counted_units (seen us : list Z) : map fst (counted seen us) = us.
Proof.
  revert seen. induction us as [| u us IH]; intros seen; simpl; [reflexivity |].
  rewrite IH. reflexivity.
Qed.

(** The TEST values of one unit continue the count of that unit. *)
Lemma tests_of_counted (u : Z) (us seen : list Z) :
  tests_of_unit u (counted seen us)
  = map Z.of_nat (seq (S (count_occ Z.eq_dec seen u)) (count_occ Z.eq_dec us u)).
Proof.
  revert seen. induction us as [| u0 us IH]; intros seen; [reflexivity |].
  unfold tests_of_unit in *. cbn [counted filter fst].
  destruct (Z.eqb_spec u0 u) as [-> | Hne].
  - cbn [map snd]. rewrite IH. rewrite count_occ_cons_eq by reflexivity.
    unfold count. rewrite count_occ_app. cbn [count_occ].
    destruct (Z.eq_dec u u) as [_ | Hn]; [| congruence].
    cbn [seq map]. f_equal; [lia |]. f_equal. f_equal. lia.
  - rewrite IH. rewrite count_occ_cons_neq by congruence.
    rewrite count_occ_app. cbn [count_occ].
    destruct (Z.eq_dec u0 u) as [Heq | _]; [congruence |].
    rewrite Nat.add_0_r. reflexivity.
Qed.

(** The scan from any state: the units it appends are those of the files
    read, in order, and the table grows by their labelled frames. *)
Lemma scan_labels (listing : list entry) (st st' : scan_state) :
  scan st listing = Ok st' ->
  exists us,
    Forall2 (fun f u => unit_of_file (fst f) = Ok u) (files_read listing) us /\
    units st' = units st ++ us /\
    final_df st' = combined (files_read listing) (counted (units st) us) (final_df st).
Proof.
  revert st. induction listing as [| e rest IH]; intros st H.
  - simpl in H. inversion H. exists []. rewrite app_nil_r.
    split; [constructor | split; reflexivity].
  - cbn [scan] in H. unfold scan_step in H. cbn [files_read].
    destruct (read_file e) as [df | msg].
    + destruct (unit_of_file (file e)) as [u | ex] eqn:Eu; cbn [bind] in H;
        [| discriminate].
      apply IH in H. cbn [units final_df logging_info] in H.
      destruct H as [us [HF [Hu Hd]]].
      exists (u :: us). split; [| split].
      * constructor; [exact Eu | exact HF].
      * rewrite Hu, <- app_assoc. reflexivity.
      * rewrite Hd. reflexivity.
    + cbn [bind] in H. apply IH in H. cbn [units final_df logging_info] in H.
      exact H.
Qed.

(** C3.  In a scan that completes, the files read are labelled in scan
    order with the pairs (UNIT, TEST) of a list [labels]: the units are
    those of the file names, the rows of each file carry its pair, the
    combined table is made of these labelled frames, and for every unit the
    TEST values of its files are 1, 2, 3, ... in scan order. *)
Theorem test_counts_files_of_unit (listing : list entry) (out : output) :
  read_raw_data listing = Ok out ->
  exists labels : list (Z * Z),
    Forall2 (fun f l => unit_of_file (fst f) = Ok (fst l)) (files_read listing) labels /\
    interim_data out = combined (files_read listing) labels empty_frame /\
    (forall f l r, In (f, l) (combine (files_read listing) labels) ->
       In r (rows (labelled (fst l) (snd l) (snd f))) ->
       row_get "UNIT" r = Some (CInt (fst l)) /\
       row_get "TEST" r = Some (CInt (snd l))) /\
    (forall u, tests_of_unit u labels
               = map Z.of_nat (seq 1 (count_occ Z.eq_dec (map fst labels) u))).
Proof.
  unfold read_raw_data. intros H.
  destruct (scan initial listing) as [st |] eqn:Es; cbn [bind] in H; [| discriminate].
  inversion H; subst out; clear H. cbn [interim_data].
  apply scan_labels in Es. destruct Es as [us [HF [_ Hd]]].
  cbn [units final_df initial] in Hd.
  exists (counted [] us). split; [| split; [| split]].
  - clear Hd. rewrite <- (counted_units [] us) in HF.
    revert HF. generalize (counted [] us). generalize (files_read listing).
    induction l as [| f fs IH]; intros [| l ls] HF; simpl in HF; inversion HF; subst;
      constructor; auto.
  - exact Hd.
  - intros f l r _ Hr. exact (labelled_rows _ _ _ _ Hr).
  - intros u. rewrite tests_of_counted, counted_units. reflexivity.
Qed.

(** Section 8: the three files of unit 13 receive the TEST values 1, 2, 3
    in scan order, the file of unit 7 in between receives 1. *)
Example tests_of_sample_listing :
  read_raw_data sample_listing = Ok sample_output /\
  map (fun r => (row_get "UNIT" r, row_get "TEST" r)) (rows (interim_data sample_output))
  = [ (Some (CInt 13), Some (CInt 1)); (Some (CInt 13), Some (CInt 1));
      (Some (CInt 7), Some (CInt 1)); (Some (CInt 7), Some (CInt 1));
      (Some (CInt 13), Some (CInt 2)); (Some (CInt 13), Some (CInt 2));
      (Some (CInt 13), Some (CInt 3)); (Some (CInt 13), Some (CInt 3)) ].
Proof. split; reflexivity. Qed.

Lemma test_counts_files_of_unit_witness :
  exists labels : list (Z * Z),
    Forall2 (fun f l => unit_of_file (fst f) = Ok (fst l))
            (files_read sample_listing) labels /\
    interim_data sample_output = combined (files_read sample_listing) labels empty_frame /\
    (forall f l r, In (f, l) (combine (files_read sample_listing) labels) ->
       In r (rows (labelled (fst l) (snd l) (snd f))) ->
       row_get "UNIT" r = Some (CInt (fst l)) /\
       row_get "TEST" r = Some (CInt (snd l))) /\
    (forall u, tests_of_unit u labels
               = map Z.of_nat (seq 1 (count_occ Z.eq_dec (map fst labels) u))).
Proof.
  apply (test_counts_files_of_unit sample_listing sample_output).
  reflexivity.
Defined.

(** ** Skipped entries *)

(** The [try] block returns a frame exactly for the entries that the
    acceptance rule lets contribute. *)
Lemma read_iff_contributes (e : entry) :
  (exists df, read_file e = inl df) <-> spec_contributes e = true.
Proof.
  unfold read_file, spec_contributes, spec_extension, spec_parses.
  destruct (endswith ".csv" (file e)), (endswith ".xlsx" (file e)),
    (endswith ".xls" (file e)), (contains "RAW" (file e)),
    (as_csv e), (as_excel e); cbn; split; intros H;
    first [ reflexivity
          | discriminate
          | match goal with
            | Hex : exists _, _ |- _ => destruct Hex as [? Hex]; discriminate
            end
          | eexists; reflexivity ].
Qed.

Lemma skipped_read (e : entry) :
  spec_contributes e = false -> exists msg, read_file e = inr msg.
Proof.
  intros H. destruct (read_file e) as [df | msg] eqn:E.
  - assert (Hc : spec_contributes e = true)
      by (apply read_iff_contributes; exists df; exact E).
    congruence.
  - exists msg. reflexivity.
Qed.

(** A skipped entry leaves two messages and nothing else. *)
Lemma skipped_step (st : scan_state) (e : entry) :
  spec_contributes e = false ->
  exists m1 m2,
    scan_step st e = Ok (mkScan (final_df st) (units st) (log st ++ [m1; m2])).
Proof.
  intros H. destruct (skipped_read e H) as [msg Hm].
  unfold scan_step. rewrite Hm. unfold logging_info. cbn [final_df units log].
  eexists. exists msg. rewrite <- app_assoc. reflexivity.
Qed.

Lemma scan_without_skipped (listing : list entry) (st1 st2 : scan_state) :
  same_data st1 st2 ->
  same_scans (scan st1 listing) (scan st2 (filter spec_contributes listing)).
Proof.
  revert st1 st2. induction listing as [| e rest IH]; intros st1 st2 [Hd Hu].
  - simpl. split; assumption.
  - cbn [filter]. destruct (spec_contributes e) eqn:Ec.
    + apply read_iff_contributes in Ec. destruct Ec as [df Hread].
      cbn [scan]. unfold scan_step. rewrite Hread.
      destruct (unit_of_file (file e)) as [u | ex]; cbn [bind].
      * apply IH. split; cbn [final_df units logging_info]; congruence.
      * reflexivity.
    + destruct (skipped_step st1 e Ec) as [m1 [m2 Hs]].
      cbn [scan]. rewrite Hs. cbn [bind]. apply IH.
      split; cbn [final_df units]; assumption.
Qed.

(** C9.  An entry is read by the scan exactly when its name ends in .csv,
    .xlsx or .xls, contains the marker RAW, and its content parses.  Every
    other entry is skipped: its step logs two messages, changes neither the
    table nor the unit counts, and raises nothing; so only an entry that
    meets the three conditions can change the table, and a listing gives
    the same outcome as the listing without its skipped entries. *)
Theorem skipped_entries_only_log :
  (forall e, (exists df, read_file e = inl df) <-> spec_contributes e = true) /\
  (forall st e, spec_contributes e = false ->
     exists m1 m2,
       scan_step st e = Ok (mkScan (final_df st) (units st) (log st ++ [m1; m2]))) /\
  (forall st e st', scan_step st e = Ok st' -> final_df st' <> final_df st ->
     spec_contributes e = true) /\
  (forall listing,
     same_tables (read_raw_data listing)
                 (read_raw_data (filter spec_contributes listing))).
Proof.
  split; [exact read_iff_contributes |].
  split; [exact skipped_step |].
  split.
  - intros st e st' Hs Hne. destruct (spec_contributes e) eqn:Ec; [reflexivity |].
    destruct (skipped_step st e Ec) as [m1 [m2 Hs']].
    rewrite Hs' in Hs. inversion Hs; subst st'. cbn [final_df] in Hne. congruence.
  - intros listing. unfold read_raw_data, same_tables.
    pose proof (scan_without_skipped listing initial initial (conj eq_refl eq_refl)) as H.
    unfold same_scans in H.
    destruct (scan initial listing) as [a | e1],
      (scan initial (filter spec_contributes listing)) as [b | e2]; cbn [bind];
      try contradiction.
    + destruct H as [Hd _]. cbn [interim_data all_features]. rewrite Hd. split; reflexivity.
    + exact H.
Qed.

(** The sample listing: the three skipped entries can be left out. *)
Example sample_listing_without_skipped :
  map file (filter spec_contributes sample_listing)
  = ["U013-RAW-1.csv"; "HYD007-RAW-1.xlsx"; "U013-RAW-2.csv"; "U013_alt-RAW-3.xls"]%string.
Proof. reflexivity. Qed.

End ReadRawDataFacts.
(* ===================================================================== *)
(** * More facts about read_raw_data.py                                   *)
(* ===================================================================== *)

Module ReadRawDataMore.

Import ReadRawData PyFacts ReadRawDataFacts.

(** ** When the scan returns *)



(** One file without a unit among files with one: the run raises. *)
Example one_unlabelled_file_ends_the_run :
  is_ok (read_raw_data
           (sample_listing ++ [mkEntry "readme_RAW.csv" (Some sample_frame) None]))
  = false.
Proof. reflexivity. Qed.

(** ** A listing without a file to read *)

Lemma scan_of_skipped (listing : list entry) (st : scan_state) :
  (forall e, In e listing -> spec_contributes e = false) ->
  exists msgs,
    scan st listing = Ok (mkScan (final_df st) (units st) (log st ++ msgs)) /\
    List.length msgs = (2 * List.length listing)%nat.
Proof.
  revert st. induction listing as [| e rest IH]; intros st Hall.
  - exists []. rewrite app_nil_r. destruct st. split; reflexivity.
  - destruct (skipped_step st e (Hall e (or_introl eq_refl))) as [m1 [m2 Hs]].
    cbn [scan]. rewrite Hs. cbn [bind].
    destruct (IH (mkScan (final_df st) (units st) (log st ++ [m1; m2]))) as [msgs [Hm Hl]].
    { intros e' He'. apply Hall. right. exact He'. }
    cbn [final_df units log] in Hm.
    exists (m1 :: m2 :: msgs). split.
    + rewrite Hm. rewrite <- app_assoc. reflexivity.
    + cbn [List.length]. lia.
Qed.

(** X2.  When no entry of the listing is a readable raw-data file (an
    empty directory included), the component raises nothing: it writes a
    table without rows and columns and an empty feature list, and has
    logged two messages per entry. *)
Theorem nothing_to_read_gives_empty_table (listing : list entry) :
  (forall e, In e listing -> spec_contributes e = false) ->
  exists msgs,
    read_raw_data listing = Ok (mkOutput empty_frame [] msgs) /\
    List.length msgs = (2 * List.length listing)%nat.
Proof.
  intros Hall. unfold read_raw_data.
  destruct (scan_of_skipped listing initial Hall) as [msgs [Hs Hl]].
  rewrite Hs. cbn. exists msgs. split; [reflexivity | exact Hl].
Qed.

Lemma nothing_to_read_gives_empty_table_witness :
  exists msgs,
    read_raw_data [mkEntry "notes.txt" None None;
                   mkEntry "U021-RAW-1.csv" None None;
                   mkEntry "U013-run3.csv" (Some sample_frame) None]
    = Ok (mkOutput empty_frame [] msgs) /\
    List.length msgs
    = (2 * List.length [mkEntry "notes.txt" None None;
                        mkEntry "U021-RAW-1.csv" None None;
                        mkEntry "U013-run3.csv" (Some sample_frame) None])%nat.
Proof.
  apply (nothing_to_read_gives_empty_table
           [mkEntry "notes.txt" None None;
            mkEntry "U021-RAW-1.csv" None None;
            mkEntry "U013-run3.csv" (Some sample_frame) None]).
  intros e [<- | [<- | [<- | []]]]; reflexivity.
Defined.

(** ** The combined table *)

Lemma has_column_in (c : string) (cols : list string) :
  has_column c cols = true <-> In c cols.
Proof.
  unfold has_column. rewrite existsb_exists. split.
  - intros [x [Hin Heq]]. apply String.eqb_eq in Heq. subst x. exact Hin.
  - intros Hin. exists c. split; [exact Hin | apply String.eqb_refl].
Qed.

Lemma concat_columns_in (a b : DataFrame) (c : string) :
  In c (columns (concat a b)) <-> In c (columns a) \/ In c (columns b).
Proof.
  unfold concat. cbn [columns]. rewrite in_app_iff, filter_In. split.
  - intros [H | [H _]]; [left | right]; exact H.
  - intros [H | H]; [left; exact H |].
    destruct (has_column c (columns a)) eqn:E.
    + left. apply has_column_in. exact E.
    + right. split; [exact H | reflexivity].
Qed.

Lemma set_column_columns_in (c' : string) (v : cell) (df : DataFrame) (c : string) :
  In c (columns (set_column c' v df)) <-> In c (columns df) \/ c = c'.
Proof.
  unfold set_column. cbn [columns].
  destruct (has_column c' (columns df)) eqn:E.
  - split; [intros H; left; exact H |].
    intros [H | ->]; [exact H | apply has_column_in; exact E].
  - rewrite in_app_iff. cbn [In]. split.
    + intros [H | [H | []]]; [left; exact H | right; symmetry; exact H].
    + intros [H | ->]; [left; exact H | right; left; reflexivity].
Qed.

Lemma labelled_columns_in (u t : Z) (df : DataFrame) (c : string) :
  In c (columns (labelled u t df))
  <-> In c (columns df) \/ c = "UNIT"%string \/ c = "TEST"%string.
Proof.
  unfold labelled. rewrite !set_column_columns_in. tauto.
Qed.

Lemma fold_concat_columns_in (frames : list DataFrame) (start : DataFrame) (c : string) :
  In c (columns (fold_left concat frames start))
  <-> In c (columns start) \/ exists fr, In fr frames /\ In c (columns fr).
Proof.
  revert start. induction frames as [| fr frames IH]; intros start; cbn [fold_left].
  - split; [intros H; left; exact H |]. intros [H | [fr [[] _]]]. exact H.
  - rewrite IH, concat_columns_in. split.
    + intros [[H | H] | [fr' [Hin H]]].
      * left. exact H.
      * right. exists fr. split; [left; reflexivity | exact H].
      * right. exists fr'. split; [right; exact Hin | exact H].
    + intros [H | [fr' [[<- | Hin] H]]].
      * left. left. exact H.
      * left. right. exact H.
      * right. exists fr'. split; assumption.
Qed.


Lemma counted_same_length (seen us : list Z) :
  List.length (counted seen us) = List.length us.
Proof. rewrite <- (counted_units seen us) at 2. rewrite length_map. reflexivity. Qed.

(** The table of a scan that returns, with as many labels as files. *)
Lemma scan_table (listing : list entry) (out : output) :
  read_raw_data listing = Ok out ->
  exists labels,
    List.length labels = List.length (files_read listing) /\
    interim_data out = combined (files_read listing) labels empty_frame /\
    all_features out = columns (interim_data out).
Proof.
  unfold read_raw_data. intros H.
  destruct (scan initial listing) as [st |] eqn:Es; cbn [bind] in H; [| discriminate].
  inversion H; subst out; clear H. cbn [interim_data all_features].
  apply scan_labels in Es. destruct Es as [us [HF [_ Hd]]].
  exists (counted (units initial) us). split; [| split; [exact Hd | reflexivity]].
  rewrite counted_same_length. symmetry. eapply Forall2_length. exact HF.
Qed.

(** X3.  The column list written by a scan that returns is the one of the
    combined table: a column is in it exactly when it is a column of some
    file read, or is UNIT or TEST and some file was read; and it has no
    duplicate when no file read has one. *)
Theorem features_are_union_of_columns (listing : list entry) (out : output) :
  read_raw_data listing = Ok out ->
  all_features out = columns (interim_data out) /\
  (forall c,
     In c (all_features out)
     <-> (exists f, In f (files_read listing) /\ In c (columns (snd f))) \/
         (files_read listing <> [] /\ (c = "UNIT"%string \/ c = "TEST"%string))).
Proof.
  intros H. destruct (scan_table listing out H) as [labels [Hlen [Hd Hf]]].
  split; [exact Hf |]. intros c. rewrite Hf, Hd. unfold combined.
  rewrite fold_concat_columns_in. cbn [columns empty_frame In].
  clear H Hd Hf. revert labels Hlen. generalize (files_read listing) as files.
  clear. intros files labels Hlen. split.
  - intros [[] | [fr [Hin Hc]]]. apply in_map_iff in Hin.
    destruct Hin as [[f l] [<- Hfl]]. cbn [fst snd] in Hc.
    apply labelled_columns_in in Hc. destruct Hc as [Hc | Hc].
    + left. exists f. split; [eapply in_combine_l; exact Hfl | exact Hc].
    + right. split; [| exact Hc]. intros Hnil. subst files. exact Hfl.
  - intros [[f [Hin Hc]] | [Hne Hc]]; right.
    + apply In_nth_error in Hin. destruct Hin as [k Hk].
      destruct (nth_error labels k) as [l |] eqn:El.
      * exists (labelled (fst l) (snd l) (snd f)). split.
        -- apply in_map_iff. exists (f, l). split; [reflexivity |].
           apply (nth_error_In _ k). 
           revert labels files Hlen El Hk. clear.
           induction k as [| k IH]; intros [| l0 ls] [| f0 fs] Hlen El Hk;
             cbn in *; try discriminate.
           ++ inversion El. inversion Hk. reflexivity.
           ++ apply IH; [lia | exact El | exact Hk].
        -- apply labelled_columns_in. left. exact Hc.
      * apply nth_error_None in El.
        assert (k < List.length files)%nat by (apply nth_error_Some; congruence).
        lia.
    + destruct files as [| f fs]; [congruence |].
      destruct labels as [| l ls]; [discriminate Hlen |].
      exists (labelled (fst l) (snd l) (snd f)). split.
      * left. reflexivity.
      * apply labelled_columns_in. right. exact Hc.
Qed.

Lemma features_are_union_of_columns_witness :
  all_features sample_output = columns (interim_data sample_output) /\
  (forall c,
     In c (all_features sample_output)
     <-> (exists f, In f (files_read sample_listing) /\ In c (columns (snd f))) \/
         (files_read sample_listing <> [] /\ (c = "UNIT"%string \/ c = "TEST"%string))).
Proof.
  apply (features_are_union_of_columns sample_listing sample_output).
  reflexivity.
Defined.

(** The sample listing: the columns of the frame, then the two labels. *)
Example features_of_sample_listing :
  all_features sample_output = ["t"; "p"; "UNIT"; "TEST"]%string.
Proof. reflexivity. Qed.





(** ** A listing that is continued *)




(** ** The range of the unit *)

Lemma first_segment_chars (sep c : ascii) (s : string) :
  In c (list_ascii_of_string (first_segment sep s)) ->
  In c (list_ascii_of_string s) /\ c <> sep.
Proof.
  induction s as [| a r IH]; cbn [first_segment]; [intros [] |].
  destruct (Ascii.eqb_spec a sep) as [-> | Hne]; [intros [] |].
  cbn [list_ascii_of_string In]. intros [<- | H].
  - split; [left; reflexivity | exact Hne].
  - destruct (IH H) as [H1 H2]. split; [right; exact H1 | exact H2].
Qed.

Lemma in_skipn (A : Type) (n : nat) (l : list A) (a : A) :
  In a (skipn n l) -> In a l.
Proof.
  revert l. induction n as [| n IH]; intros [| b l] H; cbn in *; auto.
Qed.

Lemma in_firstn (A : Type) (n : nat) (l : list A) (a : A) :
  In a (firstn n l) -> In a l.
Proof.
  revert l. induction n as [| n IH]; intros [| b l] H; cbn in *; try contradiction.
  destruct H as [H | H]; [left; exact H | right; apply IH; exact H].
Qed.

Lemma length_string_of_list (l : list ascii) :
  String.length (string_of_list_ascii l) = List.length l.
Proof. induction l as [| a l IH]; cbn; congruence. Qed.

Lemma last3_chars (c : ascii) (s : string) :
  In c (list_ascii_of_string (last3 s)) -> In c (list_ascii_of_string s).
Proof.
  unfold last3. rewrite substring_as_list, list_ascii_of_string_of_list_ascii.
  intros H. apply in_firstn in H. apply in_skipn in H. exact H.
Qed.

Lemma last3_length (s : string) : (String.length (last3 s) <= 3)%nat.
Proof.
  unfold last3. rewrite substring_as_list, length_string_of_list.
  rewrite length_firstn. lia.
Qed.

Lemma lstrip_suffix (cs : list ascii) (s : string) :
  (String.length (lstrip cs s) <= String.length s)%nat /\
  (forall c, In c (list_ascii_of_string (lstrip cs s)) ->
             In c (list_ascii_of_string s)).
Proof.
  induction s as [| a r [IH1 IH2]]; cbn [lstrip].
  - split; [lia | auto].
  - destruct (existsb (Ascii.eqb a) cs).
    + split; [cbn [String.length]; lia |].
      intros c H. right. apply IH2. exact H.
    + split; [lia | auto].
Qed.

Lemma lstrip_space_suffix (s : string) :
  (String.length (lstrip_space s) <= String.length s)%nat /\
  (forall c, In c (list_ascii_of_string (lstrip_space s)) ->
             In c (list_ascii_of_string s)).
Proof.
  induction s as [| a r [IH1 IH2]]; cbn [lstrip_space].
  - split; [lia | auto].
  - destruct (is_space a).
    + split; [cbn [String.length]; lia |].
      intros c H. right. apply IH2. exact H.
    + split; [lia | auto].
Qed.

Lemma rstrip_space_prefix (s : string) :
  (String.length (rstrip_space s) <= String.length s)%nat /\
  (forall c, In c (list_ascii_of_string (rstrip_space s)) ->
             In c (list_ascii_of_string s)).
Proof.
  induction s as [| a r [IH1 IH2]]; cbn [rstrip_space].
  - split; [lia | auto].
  - destruct (rstrip_space r) as [| b t] eqn:E.
    + destruct (is_space a); cbn [String.length list_ascii_of_string In] in *.
      * split; [lia | intros c []].
      * split; [lia |]. intros c [H | []]. left. exact H.
    + cbn [String.length list_ascii_of_string In] in *. split; [lia |].
      intros c [H | H]; [left; exact H | right; apply IH2; exact H].
Qed.

Lemma digit_value_range (c : ascii) :
  is_digit c = true -> (0 <= digit_value c <= 9)%Z.
Proof.
  unfold is_digit, digit_value. intros H. apply andb_true_iff in H.
  destruct H as [H1 H2]. apply Nat.leb_le in H1. apply Nat.leb_le in H2. lia.
Qed.

(** The digits of at most [n] characters, after a value [acc], stay below
    [(acc + 1) * 10 ^ n]. *)
Lemma more_digits_bound (n : nat) (s : string) (acc z : Z) :
  (String.length s <= n)%nat -> (0 <= acc)%Z ->
  more_digits acc s = Some z ->
  (0 <= z < (acc + 1) * 10 ^ Z.of_nat n)%Z.
Proof.
  revert s acc. induction n as [| n IH]; intros s acc Hlen Hacc H.
  - destruct s as [| c r]; [| cbn in Hlen; lia].
    cbn in H. inversion H. cbn. lia.
  - assert (Hp : (0 < 10 ^ Z.of_nat n)%Z) by (apply Z.pow_pos_nonneg; lia).
    rewrite Nat2Z.inj_succ, Z.pow_succ_r by lia.
    destruct s as [| c r]; [cbn in H; inversion H; subst; nia |].
    cbn [more_digits] in H. cbn [String.length] in Hlen.
    destruct (is_digit c) eqn:Ec.
    + pose proof (digit_value_range c Ec) as Hd.
      apply IH in H; [nia | lia | lia].
    + destruct (Ascii.eqb c "_"); [| discriminate H].
      destruct r as [| d r']; [discriminate H |].
      destruct (is_digit d) eqn:Ed; [| discriminate H].
      pose proof (digit_value_range d Ed) as Hd.
      cbn [String.length] in Hlen.
      apply IH in H; [nia | lia | lia].
Qed.

Lemma digits_bound (n : nat) (s : string) (z : Z) :
  (String.length s <= n)%nat -> digits s = Some z ->
  (0 <= z < 10 ^ Z.of_nat n)%Z.
Proof.
  intros Hlen H. destruct s as [| c r]; [discriminate H |].
  cbn [digits] in H. destruct (is_digit c) eqn:Ec; [| discriminate H].
  pose proof (digit_value_range c Ec) as Hd.
  destruct n as [| n]; [cbn in Hlen; lia |]. cbn [String.length] in Hlen.
  apply (more_digits_bound n) in H; [| lia | lia].
  assert (Hp : (0 < 10 ^ Z.of_nat n)%Z) by (apply Z.pow_pos_nonneg; lia).
  rewrite Nat2Z.inj_succ, Z.pow_succ_r by lia. nia.
Qed.

(** The three cases of the sign in [int()]. *)
Lemma int_of_str_cases (s : string) :
  int_of_str s
  = match
      match rstrip_space (lstrip_space s) with
      | EmptyString => None
      | String c r =>
          if Ascii.eqb c "-" then option_map Z.opp (digits r)
          else if Ascii.eqb c "+" then digits r
          else digits (String c r)
      end
    with
    | Some z => Ok z
    | None => Raise (ValueError (String.append "invalid literal for int() with base 10: " s))
    end.
Proof.
  unfold int_of_str. cbv zeta.
  destruct (rstrip_space (lstrip_space s)) as [| c r]; [reflexivity |].
  destruct c as [b0 b1 b2 b3 b4 b5 b6 b7].
  destruct b0, b1, b2, b3, b4, b5, b6, b7; reflexivity.
Qed.

(** A text of at most three characters without '-' reads as an integer
    from 0 to 999. *)
Lemma int_of_short_str (s : string) (z : Z) :
  (String.length s <= 3)%nat ->
  ~ In "-"%char (list_ascii_of_string s) ->
  int_of_str s = Ok z -> (0 <= z <= 999)%Z.
Proof.
  intros Hlen Hdash H. rewrite int_of_str_cases in H.
  destruct (lstrip_space_suffix s) as [L1 L2].
  destruct (rstrip_space_prefix (lstrip_space s)) as [R1 R2].
  destruct (rstrip_space (lstrip_space s)) as [| c r] eqn:Et; [discriminate H |].
  cbn [String.length] in R1.
  destruct (Ascii.eqb_spec c "-") as [-> | Hc].
  - exfalso. apply Hdash. apply L2, R2. left. reflexivity.
  - destruct (Ascii.eqb c "+").
    + destruct (digits r) as [z' |] eqn:Ed; [| discriminate H]. inversion H; subst z'.
      apply (digits_bound 2) in Ed; [| lia]. cbn in Ed. lia.
    + destruct (digits (String c r)) as [z' |] eqn:Ed; [| discriminate H].
      inversion H; subst z'.
      apply (digits_bound 3) in Ed; [| cbn [String.length]; lia]. cbn in Ed. lia.
Qed.

(** X5.  A unit read from a file name lies between 0 and 999: only the
    last three characters of the first segment are read, and that segment
    holds no '-'. *)
Theorem unit_has_at_most_three_digits (f : string) (u : Z) :
  unit_of_file f = Ok u -> (0 <= u <= 999)%Z.
Proof.
  rewrite unit_of_file_unfolded. unfold try_except_ValueError.
  assert (Hshort : forall seg, ~ In "-"%char (list_ascii_of_string seg) ->
            int_of_str (lstrip ["0"; "D"]%char (last3 seg)) = Ok u ->
            (0 <= u <= 999)%Z).
  { intros seg Hseg Hint.
    destruct (lstrip_suffix ["0"; "D"]%char (last3 seg)) as [S1 S2].
    apply (int_of_short_str _ _) in Hint; [exact Hint | |].
    - pose proof (last3_length seg). lia.
    - intros Hin. apply Hseg. apply last3_chars. apply S2. exact Hin. }
  assert (H1 : ~ In "-"%char (list_ascii_of_string (first_segment "-" f))).
  { intros Hin. apply first_segment_chars in Hin. destruct Hin as [_ Hne]. congruence. }
  assert (H2 : ~ In "-"%char
                 (list_ascii_of_string (first_segment "_" (first_segment "-" f)))).
  { intros Hin. apply first_segment_chars in Hin. destruct Hin as [Hin _].
    exact (H1 Hin). }
  destruct (spec_step1 f) as [u1 | [msg | | | |]] eqn:E1; intros H; try discriminate H.
  - inversion H; subst u1. exact (Hshort _ H1 E1).
  - exact (Hshort _ H2 H).
Qed.

Lemma unit_has_at_most_three_digits_witness : (0 <= 13 <= 999)%Z.
Proof.
  apply (unit_has_at_most_three_digits "U013-run1.csv" 13%Z).
  reflexivity.
Defined.

(** Only three characters count: a longer number loses its head. *)
Example unit_of_four_digits : unit_of_file "U1234-RAW.csv" = Ok 234%Z.
Proof. reflexivity. Qed.

(** X6.  The unit of a file name depends on the name only through what
    stands before its first '-': two names that agree there give the same
    unit, or raise alike. *)
Theorem unit_depends_on_first_segment (f g : string) :
  first_segment "-" f = first_segment "-" g -> unit_of_file f = unit_of_file g.
Proof.
  intros H. rewrite !unit_of_file_unfolded. unfold spec_step1, spec_step2.
  rewrite H. reflexivity.
Qed.

Lemma unit_depends_on_first_segment_witness :
  unit_of_file "U013-RAW-1.csv" = unit_of_file "U013-run7_RAW.xlsx".
Proof.
  apply (unit_depends_on_first_segment "U013-RAW-1.csv" "U013-run7_RAW.xlsx").
  reflexivity.
Defined.

End ReadRawDataMore.
(* ===================================================================== *)
(** * Facts about split_data.py                                           *)
(* ===================================================================== *)

Module SplitDataFacts.

Import SplitData PyFacts.

Section TableFacts.

Variable Row : Type.












(** A fraction that is not finite makes [int()] raise. *)
Lemma split_of_fraction_not_finite (df : list Row) :
  split_data NaN df = Raise (ValueError "cannot convert float NaN to integer") /\
  (df <> [] -> forall s,
     split_data (Infinity s) df
     = Raise (OverflowError "cannot convert float infinity to integer")).
Proof.
  split; [reflexivity |].
  intros Hne s. unfold split_data. cbn [mul_int_float].
  destruct (Z.eqb_spec (len df) 0) as [Hz | _].
  - destruct df; [congruence | discriminate Hz].
  - reflexivity.
Qed.

End TableFacts.


(** Five rows and the fraction 0.7: the cut is 3, row 3 is in both parts. *)
Example split_of_five_rows :
  split_data (Finite (7 # 10)) [10; 20; 30; 40; 50]%Z
  = Ok (mkOutput [10; 20; 30; 40]%Z [40; 50]%Z).
Proof. reflexivity. Qed.


End SplitDataFacts.
(* ===================================================================== *)
(** * More facts about split_data.py                                      *)
(* ===================================================================== *)

Module SplitDataMore.

Import SplitData PyFacts SplitDataFacts.

Section TableMore.

Variable Row : Type.





End TableMore.


(** Fractions at the two ends: 0 keeps the first row as train part and
    the whole table as test part, 1 gives an empty test part. *)
Example split_at_the_ends :
  split_data (Finite 0) [10; 20; 30]%Z = Ok (mkOutput [10]%Z [10; 20; 30]%Z) /\
  split_data (Finite 1) [10; 20; 30]%Z = Ok (mkOutput [10; 20; 30]%Z []).
Proof. split; reflexivity. Qed.

End SplitDataMore.
(* ===================================================================== *)
(** * Facts about train.py                                                *)
(* ===================================================================== *)

Module TrainFacts.

Import Train PyFacts.

(** ** The scaler *)

Lemma fold_min_below (xs : list Q) (x : Q) :
  fold_left Qmin xs x <= x /\ Forall (fun y => fold_left Qmin xs x <= y) xs.
Proof.
  revert x. induction xs as [| a xs IH]; intros x; cbn [fold_left].
  - split; [apply Qle_refl | constructor].
  - destruct (IH (Qmin x a)) as [H1 H2]. split; [| constructor].
    + eapply Qle_trans; [exact H1 | apply Q.le_min_l].
    + eapply Qle_trans; [exact H1 | apply Q.le_min_r].
    + exact H2.
Qed.

Lemma fold_max_above (xs : list Q) (x : Q) :
  x <= fold_left Qmax xs x /\ Forall (fun y => y <= fold_left Qmax xs x) xs.
Proof.
  revert x. induction xs as [| a xs IH]; intros x; cbn [fold_left].
  - split; [apply Qle_refl | constructor].
  - destruct (IH (Qmax x a)) as [H1 H2]. split; [| constructor].
    + eapply Qle_trans; [apply Q.le_max_l | exact H1].
    + eapply Qle_trans; [apply Q.le_max_r | exact H1].
    + exact H2.
Qed.

Lemma ten_eps_positive : 0 < 10 * eps.
Proof. reflexivity. Qed.

(** The divisor of [fit] is never zero. *)
Lemma handle_zeros_positive (r : Q) : 0 < handle_zeros_in_scale r.
Proof.
  unfold handle_zeros_in_scale. destruct (Qlt_le_dec r (10 * eps)) as [_ | Hge].
  - reflexivity.
  - eapply Qlt_le_trans; [exact ten_eps_positive | exact Hge].
Qed.

Lemma divide_by_positive (a b : Q) : 0 < b -> divide a b = Ok (a / b).
Proof.
  intros Hb. unfold divide. destruct (Qeq_bool b 0) eqn:E; [| reflexivity].
  apply Qeq_bool_eq in E. lra.
Qed.

(** On a column that is not empty, fitting raises nothing. *)
Lemma fit_of_nonempty (x : Q) (xs : list Q) :
  let lo := fold_left Qmin xs x in
  let hi := fold_left Qmax xs x in
  let scale := (1 - 0) / handle_zeros_in_scale (hi - lo) in
  fit (x :: xs) = Ok (mkScaler lo hi (hi - lo) scale (0 - lo * scale)).
Proof.
  intros lo hi scale. unfold fit. fold lo hi.
  rewrite divide_by_positive by apply handle_zeros_positive. reflexivity.
Qed.

(** C6.  On a column that is not empty and whose maximum equals its
    minimum, fitting and applying the scaler raises nothing (the divisor
    is 1, not the zero range), the output has the length of the column and
    all its values are zero. *)
Theorem constant_column_scales_to_zero (x : Q) (xs : list Q) :
  fold_left Qmax xs x == fold_left Qmin xs x ->
  exists sc ys,
    fit_transform (x :: xs) = Ok (sc, ys) /\
    data_range_ sc == 0 /\
    handle_zeros_in_scale (data_range_ sc) = 1 /\
    divide (1 - 0) (handle_zeros_in_scale (data_range_ sc)) = Ok (scale_ sc) /\
    List.length ys = List.length (x :: xs) /\
    Forall (fun y => y == 0) ys.
Proof.
  intros Hc. unfold fit_transform. rewrite fit_of_nonempty. cbn [bind].
  eexists. eexists. split; [reflexivity |]. cbn [data_range_ scale_].
  assert (Hr : fold_left Qmax xs x - fold_left Qmin xs x == 0) by (rewrite Hc; ring).
  assert (Hz : handle_zeros_in_scale (fold_left Qmax xs x - fold_left Qmin xs x) = 1).
  { unfold handle_zeros_in_scale.
    destruct (Qlt_le_dec (fold_left Qmax xs x - fold_left Qmin xs x) (10 * eps))
      as [_ | Hge]; [reflexivity |].
    pose proof ten_eps_positive. lra. }
  split; [exact Hr |]. split; [exact Hz |]. split; [| split].
  - rewrite Hz. reflexivity.
  - unfold transform. apply length_map.
  - unfold transform. cbn [scale_ min_]. rewrite Hz.
    apply Forall_forall. intros y Hy. apply in_map_iff in Hy.
    destruct Hy as [v [<- Hv]].
    assert (Hvmin : v == fold_left Qmin xs x).
    { destruct (fold_min_below xs x) as [L1 L2].
      destruct (fold_max_above xs x) as [U1 U2].
      rewrite Forall_forall in L2, U2.
      destruct Hv as [<- | Hv].
      - apply Qle_antisym; [rewrite <- Hc; exact U1 | exact L1].
      - apply Qle_antisym; [rewrite <- Hc; apply U2; exact Hv | apply L2; exact Hv]. }
    rewrite Hvmin. field.
Qed.

Lemma constant_column_scales_to_zero_witness :
  exists sc ys,
    fit_transform [7 # 2; 7 # 2; 7 # 2] = Ok (sc, ys) /\
    data_range_ sc == 0 /\
    handle_zeros_in_scale (data_range_ sc) = 1 /\
    divide (1 - 0) (handle_zeros_in_scale (data_range_ sc)) = Ok (scale_ sc) /\
    List.length ys = List.length [7 # 2; 7 # 2; 7 # 2] /\
    Forall (fun y => y == 0) ys.
Proof.
  apply (constant_column_scales_to_zero (7 # 2) [7 # 2; 7 # 2]).
  reflexivity.
Defined.

(** A column that is not constant is mapped onto the interval from 0 to 1. *)
Example scaling_of_a_ramp :
  option_map (fun r => map Qred (snd r))
    (match fit_transform [2; 4; 3; 6] with Ok r => Some r | Raise _ => None end)
  = Some [0; 1 # 2; 1 # 4; 1].
Proof. reflexivity. Qed.

Section WindowFacts.

Variable A : Type.

(** The loop, started after [a] rounds on the positions still to visit:
    each round appends the window that ends before position [a + L] and
    the value at that position. *)
Lemma window_loop_from (L : nat) (scaled : list A) (m a : nat)
    (xs : list (list A)) (ys : list A) :
  (a + m + L <= List.length scaled)%nat ->
  window_loop (Z.of_nat L) scaled
    (map (fun k => (Z.of_nat L + Z.of_nat k)%Z) (seq a m)) xs ys
  = Ok (xs ++ map (window_at L scaled) (seq a m),
        ys ++ firstn m (skipn (a + L) scaled)).
Proof.
  revert a xs ys. induction m as [| m IH]; intros a xs ys H.
  - simpl. rewrite !app_nil_r. reflexivity.
  - cbn [seq map window_loop].
    destruct (getitem_in_range A scaled (Z.of_nat L + Z.of_nat a)%Z) as [y [Hy Hn]].
    { unfold len. lia. }
    rewrite Hy. cbn [bind].
    rewrite slice_in_range by (unfold len; lia).
    replace (Z.to_nat (Z.of_nat L + Z.of_nat a - (Z.of_nat L + Z.of_nat a - Z.of_nat L))%Z)
      with L by lia.
    replace (Z.to_nat (Z.of_nat L + Z.of_nat a - Z.of_nat L)%Z) with a by lia.
    rewrite IH by lia.
    replace (Z.to_nat (Z.of_nat L + Z.of_nat a)%Z) with (a + L)%nat in Hn by lia.
    rewrite <- !app_assoc. cbn [app]. f_equal. f_equal. f_equal.
    rewrite (skipn_cons_nth _ _ _ _ Hn). reflexivity.
Qed.

(** Closed form of the window construction. *)
Lemma build_windows_closed (L : nat) (scaled : list A) :
  (L <= List.length scaled)%nat ->
  build_windows (Z.of_nat L) scaled
  = Ok (map (window_at L scaled) (seq 0 (List.length scaled - L)),
        skipn L scaled).
Proof.
  intros H. unfold build_windows, range.
  replace (Z.to_nat (len scaled - Z.of_nat L)%Z) with (List.length scaled - L)%nat
    by (unfold len; lia).
  rewrite window_loop_from by lia. cbn [app Nat.add]. f_equal. f_equal.
  apply firstn_all2. rewrite length_skipn. lia.
Qed.

(** C1.  On a scaled sequence of length [n] and a lookback [L] with
    [0 <= L < n], the window construction of [train] returns exactly
    [n - L] windows and [n - L] labels; window [i] is the run of the scaled
    values at the positions [i, i+L) and label [i] is the scaled value at
    position [i + L]. *)
Theorem windows_one_per_position (scaled : list A) (L : Z) :
  (0 <= L < len scaled)%Z ->
  exists x_train y_train,
    build_windows L scaled = Ok (x_train, y_train) /\
    len x_train = (len scaled - L)%Z /\
    len y_train = (len scaled - L)%Z /\
    forall i : nat, (Z.of_nat i < len scaled - L)%Z ->
      nth_error x_train i = Some (firstn (Z.to_nat L) (skipn i scaled)) /\
      List.length (firstn (Z.to_nat L) (skipn i scaled)) = Z.to_nat L /\
      (exists y, nth_error y_train i = Some y /\
                 nth_error scaled (i + Z.to_nat L) = Some y).
Proof.
  intros HL.
  assert (Hn : (Z.to_nat L <= List.length scaled)%nat) by (unfold len in HL; lia).
  pose proof (build_windows_closed (Z.to_nat L) scaled Hn) as Hb.
  rewrite Z2Nat.id in Hb by lia.
  eexists. eexists. split; [exact Hb |].
  split; [| split].
  - unfold len in *. rewrite length_map, length_seq. lia.
  - unfold len in *. rewrite length_skipn. lia.
  - intros i Hi. unfold len in *.
    assert (Hi' : (i < List.length scaled - Z.to_nat L)%nat) by lia.
    split; [| split].
    + rewrite nth_error_map, nth_error_seq.
      destruct (Nat.ltb_spec i (List.length scaled - Z.to_nat L)) as [_ | Hge]; [| lia].
      reflexivity.
    + rewrite length_firstn, length_skipn. lia.
    + rewrite nth_error_skipn. rewrite (Nat.add_comm (Z.to_nat L) i).
      destruct (nth_error scaled (i + Z.to_nat L)) as [y |] eqn:E.
      * exists y. split; reflexivity.
      * apply nth_error_None in E. lia.
Qed.

End WindowFacts.

(** The example of section 8: ten increasing values and a lookback of 3
    give the seven pairs ([1,2,3], 4), ..., ([7,8,9], 10). *)
Example windows_of_one_to_ten :
  build_windows 3 [1; 2; 3; 4; 5; 6; 7; 8; 9; 10]%Z
  = Ok ([[1; 2; 3]; [2; 3; 4]; [3; 4; 5]; [4; 5; 6]; [5; 6; 7]; [6; 7; 8]; [7; 8; 9]]%Z,
        [4; 5; 6; 7; 8; 9; 10]%Z).
Proof. reflexivity. Qed.

(** A lookback is a window length.  On a negative one the slices of line
    60 count from the end of the sequence, the windows differ in length
    and [np.stack] raises. *)
Example negative_lookback_is_ragged :
  build_windows (-1) [1; 2; 3]%Z = Ok ([[1; 2]; []; []; []]%Z, [3; 1; 2; 3]%Z) /\
  is_ok (stack_windows [[1; 2]; []; []; []]%Z) = false.
Proof. split; reflexivity. Qed.

Lemma windows_one_per_position_witness :
  exists x_train y_train,
    build_windows 3 [1; 2; 3; 4; 5; 6; 7; 8; 9; 10]%Z = Ok (x_train, y_train) /\
    len x_train = (len [1; 2; 3; 4; 5; 6; 7; 8; 9; 10]%Z - 3)%Z /\
    len y_train = (len [1; 2; 3; 4; 5; 6; 7; 8; 9; 10]%Z - 3)%Z /\
    forall i : nat, (Z.of_nat i < len [1; 2; 3; 4; 5; 6; 7; 8; 9; 10]%Z - 3)%Z ->
      nth_error x_train i
      = Some (firstn (Z.to_nat 3) (skipn i [1; 2; 3; 4; 5; 6; 7; 8; 9; 10]%Z)) /\
      List.length (firstn (Z.to_nat 3) (skipn i [1; 2; 3; 4; 5; 6; 7; 8; 9; 10]%Z))
      = Z.to_nat 3 /\
      (exists y, nth_error y_train i = Some y /\
                 nth_error [1; 2; 3; 4; 5; 6; 7; 8; 9; 10]%Z (i + Z.to_nat 3) = Some y).
Proof.
  apply (windows_one_per_position Z [1; 2; 3; 4; 5; 6; 7; 8; 9; 10]%Z 3%Z).
  unfold len. simpl. lia.
Defined.

(** ** The best loss of a history *)

Lemma tracked_snoc (vs : list Q) (v : Q) :
  tracked (vs ++ [v]) = track (tracked vs) v.
Proof. unfold tracked. rewrite fold_left_app. reflexivity. Qed.

Lemma tracked_next (vs : list Q) : snd (tracked vs) = List.length vs.
Proof.
  induction vs as [| v vs IH] using rev_ind; [reflexivity |].
  rewrite tracked_snoc, length_app. cbn [List.length].
  destruct (tracked vs) as [[b be] nx]. cbn [snd] in IH. subst nx.
  unfold track. destruct (is_improvement v b); cbn [snd]; lia.
Qed.

Lemma tracked_parts (vs : list Q) :
  tracked vs = (best_so_far vs, best_epoch_of vs, List.length vs).
Proof.
  unfold best_so_far, best_epoch_of. rewrite <- tracked_next.
  destruct (tracked vs) as [[b be] nx]. reflexivity.
Qed.

Lemma track_improvement (vs : list Q) (v : Q) :
  is_improvement v (best_so_far vs) = true ->
  best_so_far (vs ++ [v]) = Some v /\ best_epoch_of (vs ++ [v]) = List.length vs.
Proof.
  intros H. unfold best_so_far at 1, best_epoch_of.
  rewrite tracked_snoc, tracked_parts. unfold track. rewrite H. split; reflexivity.
Qed.

Lemma track_no_improvement (vs : list Q) (v : Q) :
  is_improvement v (best_so_far vs) = false ->
  best_so_far (vs ++ [v]) = best_so_far vs /\
  best_epoch_of (vs ++ [v]) = best_epoch_of vs.
Proof.
  intros H. unfold best_so_far at 1, best_epoch_of at 1.
  rewrite tracked_snoc, tracked_parts. unfold track. rewrite H. split; reflexivity.
Qed.

(** Only before the first epoch is there no best loss. *)
Lemma best_so_far_of_nonempty (vs : list Q) :
  vs <> [] -> exists b, best_so_far vs = Some b.
Proof.
  induction vs as [| v vs IH] using rev_ind; [congruence |]. intros _.
  destruct (is_improvement v (best_so_far vs)) eqn:E.
  - exists v. apply (track_improvement _ _ E).
  - destruct (track_no_improvement _ _ E) as [-> _].
    destruct vs as [| v0 vs0]; [discriminate E |].
    apply IH. discriminate.
Qed.

(** The best epoch is one of the epochs that ran. *)
Lemma best_epoch_in_history (vs : list Q) :
  vs <> [] -> (best_epoch_of vs < List.length vs)%nat.
Proof.
  induction vs as [| v vs IH] using rev_ind; [congruence |]. intros _.
  rewrite length_app. cbn [List.length].
  destruct (is_improvement v (best_so_far vs)) eqn:E.
  - destruct (track_improvement _ _ E) as [_ ->]. lia.
  - destruct (track_no_improvement _ _ E) as [_ ->].
    destruct vs as [| v0 vs0]; [discriminate E |].
    assert (best_epoch_of (v0 :: vs0) < List.length (v0 :: vs0))%nat
      by (apply IH; discriminate).
    lia.
Qed.

Lemma improvement_is_below (v b : Q) :
  is_improvement v (Some b) = true -> v < b.
Proof.
  unfold is_improvement, Qltb. intros H. apply negb_true_iff in H.
  destruct (Qlt_le_dec v b) as [Hlt | Hge]; [exact Hlt |].
  apply Qle_bool_iff in Hge. congruence.
Qed.

Lemma no_improvement_is_above (v b : Q) :
  is_improvement v (Some b) = false -> b <= v.
Proof.
  unfold is_improvement, Qltb. intros H. apply negb_false_iff in H.
  apply Qle_bool_iff. exact H.
Qed.

(** The best loss is the loss of the best epoch, and no epoch has a lower
    one. *)
Lemma best_is_minimum (vs : list Q) (b : Q) :
  best_so_far vs = Some b ->
  nth_error vs (best_epoch_of vs) = Some b /\ Forall (fun v => b <= v) vs.
Proof.
  revert b. induction vs as [| v vs IH] using rev_ind; intros b Hb; [discriminate Hb |].
  destruct (is_improvement v (best_so_far vs)) eqn:E.
  - destruct (track_improvement _ _ E) as [Hs He]. rewrite Hs in Hb. inversion Hb; subst b.
    rewrite He. split.
    + rewrite nth_error_app2 by lia. rewrite Nat.sub_diag. reflexivity.
    + apply Forall_app. split; [| constructor; [apply Qle_refl | constructor]].
      destruct (best_so_far vs) as [b0 |] eqn:Eb.
      * destruct (IH b0 eq_refl) as [_ Hall].
        apply improvement_is_below in E.
        eapply Forall_impl; [| exact Hall]. intros a Ha. cbv beta in Ha. lra.
      * destruct vs as [| v0 vs0]; [constructor |].
        destruct (best_so_far_of_nonempty (v0 :: vs0)) as [b1 Hb1]; [discriminate |].
        congruence.
  - destruct (track_no_improvement _ _ E) as [Hs He]. rewrite Hs in Hb. rewrite He.
    destruct (IH b Hb) as [Hn Hall]. rewrite Hb in E. split.
    + rewrite nth_error_app1; [exact Hn |].
      apply nth_error_Some. congruence.
    + apply Forall_app. split; [exact Hall |].
      constructor; [apply no_improvement_is_above; exact E | constructor].
Qed.

(** Epochs that do not improve leave the best epoch where it was. *)
Lemma best_epoch_through_plateau (vs : list Q) (e k : nat) :
  (e + k <= List.length vs)%nat ->
  (forall j, (e <= j < e + k)%nat -> non_improving vs j) ->
  best_epoch_of (firstn (e + k) vs) = best_epoch_of (firstn e vs).
Proof.
  induction k as [| k IH]; intros Hlen Hnon.
  - rewrite Nat.add_0_r. reflexivity.
  - rewrite <- IH by (try lia; intros j Hj; apply Hnon; lia).
    destruct (Hnon (e + k)%nat) as [v [Hv Hi]]; [lia |].
    replace (e + S k)%nat with (S (e + k)) by lia.
    rewrite (firstn_snoc_nth _ _ _ _ Hv).
    apply (track_no_improvement _ _ Hi).
Qed.

(** The first epoch always improves. *)
Lemma first_epoch_improves (vs : list Q) : ~ non_improving vs 0.
Proof. intros [v [_ H]]. discriminate H. Qed.

(** ** The fit loop *)

Section FitFacts.

Variables Weights Optim : Type.
Variable run_epoch :
  list (list Q) -> list Q -> Z -> Q -> Weights * Optim ->
  result (Weights * Optim * epoch_logs).
Variables (x_train : list (list Q)) (y_train : list Q) (batch_size : Z).

Lemma epochs_loop_step (n : nat) (epoch : Z) (st : fit_state Weights Optim) :
  epochs_loop run_epoch x_train y_train batch_size (S n) epoch st
  = (r <- run_epoch x_train y_train batch_size (lr st) (weights st, optim st) ;;
     if stop_training (after_epoch epoch st r) then Ok (after_epoch epoch st r)
     else epochs_loop run_epoch x_train y_train batch_size n (epoch + 1)
            (after_epoch epoch st r)).
Proof.
  cbn [epochs_loop].
  destruct (run_epoch x_train y_train batch_size (lr st) (weights st, optim st))
    as [[[w o] logs] | ex]; cbn [bind]; [| reflexivity].
  unfold after_epoch.
  destruct (es_on_epoch_end (early_stopping st) epoch (val_loss logs) w) as [[es w'] stop].
  destruct (rl_on_epoch_end (reduce_lr st) (val_loss logs) (lr st)) as [rl lr'].
  reflexivity.
Qed.

Lemma fit_inv_initial (p : Z) (lr0 : Q) (model : Weights * Optim) :
  (1 <= p)%Z ->
  fit_inv p (mkFit (fst model) (snd model) lr0 false
                   (mkES p 0 0 None None 0) (mkRL (p / 2) 0 None) [] []).
Proof.
  intros Hp. constructor; cbn; try reflexivity; try lia.
Qed.

Lemma val_losses_after (epoch : Z) (st : fit_state Weights Optim)
    (w : Weights) (o : Optim) (logs : epoch_logs) :
  val_losses (after_epoch epoch st (w, o, logs)) = val_losses st ++ [val_loss logs] /\
  seen (after_epoch epoch st (w, o, logs)) = seen st ++ [w].
Proof.
  unfold after_epoch.
  destruct (es_on_epoch_end (early_stopping st) epoch (val_loss logs) w) as [[es w'] stop].
  destruct (rl_on_epoch_end (reduce_lr st) (val_loss logs) (lr st)) as [rl lr'].
  unfold val_losses. cbn [history seen]. rewrite map_app. split; reflexivity.
Qed.

Lemma early_stopping_after (epoch : Z) (st : fit_state Weights Optim)
    (w : Weights) (o : Optim) (logs : epoch_logs) :
  (early_stopping (after_epoch epoch st (w, o, logs)),
   weights (after_epoch epoch st (w, o, logs)),
   stop_training (after_epoch epoch st (w, o, logs)))
  = es_on_epoch_end (early_stopping st) epoch (val_loss logs) w.
Proof.
  unfold after_epoch.
  destruct (es_on_epoch_end (early_stopping st) epoch (val_loss logs) w) as [[es w'] stop].
  destruct (rl_on_epoch_end (reduce_lr st) (val_loss logs) (lr st)) as [rl lr'].
  reflexivity.
Qed.

(** One more epoch keeps the invariant. *)
Lemma fit_inv_after (p : Z) (st : fit_state Weights Optim)
    (w : Weights) (o : Optim) (logs : epoch_logs) :
  (1 <= p)%Z ->
  fit_inv p st -> stop_training st = false ->
  fit_inv p (after_epoch (Z.of_nat (List.length (val_losses st))) st (w, o, logs)).
Proof.
  intros Hp [Iseen Ipat Ibest Ibe Ibw Iwait Irun _ Ibefore] Hrun.
  specialize (Irun Hrun).
  set (epoch := Z.of_nat (List.length (val_losses st))).
  set (st1 := after_epoch epoch st (w, o, logs)).
  destruct (val_losses_after epoch st w o logs) as [Hvs Hseen]. fold st1 in Hvs, Hseen.
  pose proof (early_stopping_after epoch st w o logs) as Hes. fold st1 in Hes.
  set (vs := val_losses st) in *. set (v := val_loss logs) in *.
  assert (Hbefore1 : forall m, (1 <= m < List.length vs + 1)%nat ->
            (Z.of_nat (m - 1 - best_epoch_of (firstn m (vs ++ [v]))) < p)%Z).
  { intros m Hm. rewrite firstn_app. replace (m - List.length vs)%nat with 0%nat by lia.
    cbn [firstn]. rewrite app_nil_r.
    destruct (Nat.eq_dec m (List.length vs)) as [-> | Hne].
    - rewrite firstn_all. exact Irun.
    - apply Ibefore. lia. }
  unfold es_on_epoch_end in Hes. rewrite Ibest, Ipat, Iwait, Ibw in Hes. fold vs in Hes.
  destruct (is_improvement v (best_so_far vs)) eqn:E.
  - (* the epoch improves *)
    destruct (track_improvement _ _ E) as [Hs He].
    cbn [es_patience es_wait] in Hes.
    replace (p <=? 0)%Z with false in Hes by (symmetry; apply Z.leb_gt; lia).
    cbn [andb] in Hes. inversion Hes as [[H1 H2 H3]]. clear Hes.
    constructor; rewrite ?Hvs, ?Hseen, ?H1, ?H3, ?Hs, ?He, ?length_app;
      cbn [List.length es_patience es_best es_best_epoch es_best_weights es_wait].
    + lia.
    + reflexivity.
    + reflexivity.
    + reflexivity.
    + destruct (vs ++ [v]) eqn:Ev; [destruct vs; discriminate Ev |].
      rewrite nth_error_app2 by lia. rewrite Iseen, Nat.sub_diag. reflexivity.
    + f_equal. lia.
    + intros _. lia.
    + discriminate.
    + exact Hbefore1.
  - (* the epoch does not improve *)
    destruct (track_no_improvement _ _ E) as [Hs He].
    assert (Hne : vs <> []) by (intros Hnil; rewrite Hnil in E; discriminate E).
    pose proof (best_epoch_in_history vs Hne) as Hlt.
    assert (Hpos : (0 < epoch)%Z).
    { unfold epoch. fold vs. destruct vs; [congruence |]. cbn [List.length]. lia. }
    assert (Hbw : match vs with
                  | [] => None
                  | _ :: _ => nth_error (seen st) (best_epoch_of vs)
                  end = nth_error (seen st) (best_epoch_of vs))
      by (destruct vs; [congruence | reflexivity]).
    rewrite Hbw in Hes.
    destruct (nth_error (seen st) (best_epoch_of vs)) as [bw |] eqn:Eb;
      [| apply nth_error_None in Eb; lia].
    cbn [es_patience es_wait es_best es_best_weights es_best_epoch es_stopped_epoch] in Hes.
    replace (0 <? epoch)%Z with true in Hes by (symmetry; apply Z.ltb_lt; exact Hpos).
    rewrite andb_true_r in Hes.
    assert (Hwait : (Z.of_nat (List.length vs - 1 - best_epoch_of vs) + 1)%Z
                    = Z.of_nat (List.length (vs ++ [v]) - 1 - best_epoch_of vs)).
    { rewrite length_app. cbn [List.length]. lia. }
    rewrite Hwait in Hes.
    assert (Hnth : nth_error (seen st ++ [w]) (best_epoch_of vs) = Some bw).
    { rewrite nth_error_app1; [exact Eb |]. apply nth_error_Some. congruence. }
    assert (Hcons : match vs ++ [v] with
                    | [] => None
                    | _ :: _ => nth_error (seen st ++ [w]) (best_epoch_of vs)
                    end = Some bw).
    { destruct (vs ++ [v]) eqn:Ev; [destruct vs; discriminate Ev | exact Hnth]. }
    revert Hes.
    destruct (Z.leb_spec p (Z.of_nat (List.length (vs ++ [v]) - 1 - best_epoch_of vs)))
      as [Hstop | Hgo]; intros Hes;
      inversion Hes as [[H1 H2 H3]]; clear Hes;
      constructor; rewrite ?Hvs, ?Hseen, ?H1, ?H2, ?H3, ?Hs, ?He;
      cbn [es_patience es_best es_best_epoch es_best_weights es_wait es_stopped_epoch];
      try reflexivity; try (symmetry; exact Hcons);
      try (rewrite !length_app; cbn [List.length]; lia);
      try discriminate; try exact Ibe;
      try (rewrite length_app; cbn [List.length]; exact Hbefore1);
      try (intros _; split; [exact Hnth |]; split; [exact Hstop |];
           unfold epoch; rewrite length_app; cbn [List.length]; f_equal; lia);
      try (intros _; exact Hgo).
Qed.

(** The loop keeps the invariant, from any state that satisfies it. *)
Lemma epochs_loop_inv (p : Z) (n : nat) (st st' : fit_state Weights Optim) :
  (1 <= p)%Z ->
  fit_inv p st -> stop_training st = false ->
  epochs_loop run_epoch x_train y_train batch_size n
    (Z.of_nat (List.length (val_losses st))) st = Ok st' ->
  fit_inv p st'.
Proof.
  intros Hp. revert st. induction n as [| n IH]; intros st Hinv Hrun Hloop.
  - cbn in Hloop. inversion Hloop; subst. exact Hinv.
  - rewrite epochs_loop_step in Hloop.
    destruct (run_epoch x_train y_train batch_size (lr st) (weights st, optim st))
      as [[[w o] logs] | ex]; cbn [bind] in Hloop; [| discriminate].
    pose proof (fit_inv_after p st w o logs Hp Hinv Hrun) as Hinv1.
    destruct (stop_training (after_epoch _ st (w, o, logs))) eqn:Estop.
    + inversion Hloop; subst. exact Hinv1.
    + apply (IH _ Hinv1 Estop).
      destruct (val_losses_after (Z.of_nat (List.length (val_losses st))) st w o logs)
        as [Hvs _].
      rewrite Hvs, length_app. cbn [List.length].
      replace (Z.of_nat (List.length (val_losses st) + 1))
        with (Z.of_nat (List.length (val_losses st)) + 1)%Z by lia.
      exact Hloop.
Qed.

Lemma fit_model_inv (epochs patience : Z) (lr0 : Q) (model : Weights * Optim)
    (st : fit_state Weights Optim) :
  (1 <= patience)%Z ->
  fit_model run_epoch x_train y_train batch_size epochs patience lr0 model = Ok st ->
  fit_inv patience st.
Proof.
  intros Hp Hfit. unfold fit_model in Hfit.
  eapply epochs_loop_inv; [exact Hp | apply (fit_inv_initial patience lr0 model Hp) | | exact Hfit].
  reflexivity.
Qed.

(** A loss that does not fall below the loss of the epoch before does not
    improve on the best loss either. *)
Lemma non_decreasing_is_non_improving (vs : list Q) (j : nat) (u v : Q) :
  nth_error vs j = Some u -> nth_error vs (S j) = Some v -> u <= v ->
  non_improving vs (S j).
Proof.
  intros Hu Hv Hle. exists v. split; [exact Hv |].
  destruct (best_so_far (firstn (S j) vs)) as [b |] eqn:Eb.
  - destruct (best_is_minimum _ _ Eb) as [_ Hall].
    rewrite (firstn_snoc_nth _ _ _ _ Hu) in Hall.
    apply Forall_app in Hall. destruct Hall as [_ Hall]. inversion Hall; subst.
    unfold is_improvement, Qltb. apply negb_false_iff. apply Qle_bool_iff. lra.
  - rewrite (firstn_snoc_nth _ _ _ _ Hu) in Eb.
    destruct (best_so_far_of_nonempty (firstn j vs ++ [u])) as [b Hb].
    + destruct (firstn j vs); discriminate.
    + congruence.
Qed.

(** C5.  In a run of [fit] with a patience of at least 1: when the epochs
    [e], ..., [e + patience - 1] have run and none of them improved on the
    best validation loss before it, these are all the epochs that ran (the
    run halted at the end of epoch [e + patience - 1]), the callback set
    [stop_training], and the parameters of the model are those recorded at
    the end of the best epoch, which lies before [e] and whose validation
    loss no epoch of the run went below. *)
Theorem early_stopping_halts_and_restores (epochs patience : Z) (lr0 : Q)
    (model : Weights * Optim) (st : fit_state Weights Optim) (e : nat) :
  (1 <= patience)%Z ->
  fit_model run_epoch x_train y_train batch_size epochs patience lr0 model = Ok st ->
  (e + Z.to_nat patience <= List.length (val_losses st))%nat ->
  (forall j, (e <= j < e + Z.to_nat patience)%nat -> non_improving (val_losses st) j) ->
  List.length (val_losses st) = (e + Z.to_nat patience)%nat /\
  List.length (history st) = (e + Z.to_nat patience)%nat /\
  stop_training st = true /\
  es_stopped_epoch (early_stopping st) = (Z.of_nat e + patience - 1)%Z /\
  (best_epoch_of (val_losses st) < e)%nat /\
  nth_error (seen st) (best_epoch_of (val_losses st)) = Some (weights st) /\
  exists b,
    nth_error (val_losses st) (best_epoch_of (val_losses st)) = Some b /\
    Forall (fun v => b <= v) (val_losses st).
Proof.
  intros Hp Hfit Hlen Hnon.
  pose proof (fit_model_inv epochs patience lr0 model st Hp Hfit) as Hinv.
  destruct Hinv as [_ _ _ _ _ _ Irun Istop Ibefore].
  set (vs := val_losses st) in *. set (P := Z.to_nat patience) in *.
  assert (He : (1 <= e)%nat).
  { destruct e as [| e']; [| lia].
    exfalso. apply (first_epoch_improves vs). apply Hnon. lia. }
  assert (Hplateau : best_epoch_of (firstn (e + P) vs) = best_epoch_of (firstn e vs))
    by (apply best_epoch_through_plateau; assumption).
  assert (Hbefore : (best_epoch_of (firstn e vs) < e)%nat).
  { assert (Hl : List.length (firstn e vs) = e) by (rewrite length_firstn; lia).
    rewrite <- Hl at 2. apply best_epoch_in_history.
    intros Hnil. rewrite Hnil in Hl. cbn in Hl. lia. }
  assert (Hm : List.length vs = (e + P)%nat).
  { destruct (Nat.eq_dec (List.length vs) (e + P)) as [Heq | Hne]; [exact Heq |].
    exfalso. specialize (Ibefore (e + P)%nat). rewrite Hplateau in Ibefore.
    assert (Z.of_nat (e + P - 1 - best_epoch_of (firstn e vs)) < patience)%Z
      by (apply Ibefore; lia).
    lia. }
  rewrite <- Hm, firstn_all in Hplateau.
  assert (Hstop : stop_training st = true).
  { destruct (stop_training st) eqn:Es; [reflexivity |].
    specialize (Irun eq_refl). rewrite Hplateau in Irun. lia. }
  destruct (Istop Hstop) as [Hw [_ Hse]].
  split; [exact Hm |].
  split; [unfold vs, val_losses in Hm; rewrite length_map in Hm; exact Hm |].
  split; [exact Hstop |].
  split; [rewrite Hse, Hm; lia |].
  split; [rewrite Hplateau; exact Hbefore |].
  split; [exact Hw |].
  destruct (best_so_far_of_nonempty vs) as [b Hb].
  { intros Hnil. rewrite Hnil in Hm. cbn in Hm. lia. }
  exists b. apply best_is_minimum. exact Hb.
Qed.

End FitFacts.

(** The losses 5, 4, 3, 4, 5, ... with a patience of 2: the epochs 3 and
    4 do not improve on the loss 3 of epoch 2; the run halts after epoch
    4 and the model is the one of epoch 2. *)
Example toy_fit_halts_after_plateau :
  toy_fit = Ok toy_fitted /\
  val_losses toy_fitted = [5; 4; 3; 4; 5] /\
  seen toy_fitted = [1; 2; 3; 4; 5]%nat /\
  weights toy_fitted = 3%nat /\
  stop_training toy_fitted = true.
Proof. repeat split; vm_compute; reflexivity. Qed.

Lemma early_stopping_halts_and_restores_witness :
  List.length (val_losses toy_fitted) = (3 + Z.to_nat 2)%nat /\
  List.length (history toy_fitted) = (3 + Z.to_nat 2)%nat /\
  stop_training toy_fitted = true /\
  es_stopped_epoch (early_stopping toy_fitted) = (Z.of_nat 3 + 2 - 1)%Z /\
  (best_epoch_of (val_losses toy_fitted) < 3)%nat /\
  nth_error (seen toy_fitted) (best_epoch_of (val_losses toy_fitted))
  = Some (weights toy_fitted) /\
  exists b,
    nth_error (val_losses toy_fitted) (best_epoch_of (val_losses toy_fitted)) = Some b /\
    Forall (fun v => b <= v) (val_losses toy_fitted).
Proof.
  apply (early_stopping_halts_and_restores nat unit toy_run_epoch [] [] 4%Z
           10%Z 2%Z (1 # 100) (0%nat, tt) toy_fitted 3%nat).
  - lia.
  - vm_compute. reflexivity.
  - vm_compute. lia.
  - intros j Hj.
    assert (Hcases : j = 3%nat \/ j = 4%nat) by (change (Z.to_nat 2) with 2%nat in Hj; lia).
    destruct Hcases as [-> | ->].
    + exists 4. split; vm_compute; reflexivity.
    + exists 5. split; vm_compute; reflexivity.
Defined.

(** ** The component and its artifacts *)

Section ComponentFacts.

Variables Weights Optim : Type.
Variable build : Z -> Z * Z -> Q -> result (Weights * Optim).
Variable run_epoch :
  list (list Q) -> list Q -> Z -> Q -> Weights * Optim ->
  result (Weights * Optim * epoch_logs).

(** The outcomes of a run from an empty store: it raises before the
    scaler is written, or it raises after that, or it returns. *)
Lemma train_outcomes (p : params) (df : list (string * list Q))
    (P : artifacts Weights * result unit -> Prop) :
  (forall e, column df (feature p) = Raise e -> P (no_artifacts, Raise e)) ->
  (forall X e, column df (feature p) = Ok X -> fit_transform X = Raise e ->
     P (no_artifacts, Raise e)) ->
  (forall X sc ys e, column df (feature p) = Ok X -> fit_transform X = Ok (sc, ys) ->
     P (mkArtifacts (Some sc) (Some (feature p)) None None None None, Raise e)) ->
  (forall X sc ys w h, column df (feature p) = Ok X -> fit_transform X = Ok (sc, ys) ->
     P (mkArtifacts (Some sc) (Some (feature p)) (Some w) (Some (feature p))
                    (Some h) (Some (feature p)), Ok tt)) ->
  P (Train.train build run_epoch p df no_artifacts).
Proof.
  intros Hcol Hfit Hlate Hdone.
  unfold Train.train, sbind, eval, write.
  destruct (column df (feature p)) as [X | e] eqn:EX; cbv beta iota;
    [| apply Hcol; reflexivity].
  destruct (fit_transform X) as [[sc scaled] | e] eqn:EF; cbv beta iota;
    [| apply (Hfit X); [reflexivity | exact EF]].
  cbn [scaler_model scaler_feature keras_model keras_feature metrics metrics_feature
       no_artifacts].
  destruct (build_windows (lookback p) scaled) as [[xs ys] | e]; cbv beta iota;
    [| apply (Hlate X sc scaled); [reflexivity | exact EF]].
  destruct (stack_windows xs) as [x_train | e]; cbv beta iota;
    [| apply (Hlate X sc scaled); [reflexivity | exact EF]].
  destruct (stack_labels ys) as [y_train | e]; cbv beta iota;
    [| apply (Hlate X sc scaled); [reflexivity | exact EF]].
  destruct (build (lstm_units p) (len (hd [] x_train), 1%Z) (learning_rate p))
    as [forecaster | e]; cbv beta iota;
    [| apply (Hlate X sc scaled); [reflexivity | exact EF]].
  destruct (fit_model run_epoch x_train y_train (batch_size p) (epochs p)
              (patience p) (learning_rate p) forecaster) as [fitted | e];
    cbv beta iota;
    [| apply (Hlate X sc scaled); [reflexivity | exact EF]].
  cbn [scaler_model scaler_feature keras_model keras_feature metrics metrics_feature].
  apply (Hdone X sc scaled); [reflexivity | exact EF].
Qed.

(** Where the range of the loop is empty, no window is built. *)
Lemma no_window_when_short (A : Type) (lookback : Z) (scaled : list A) :
  (len scaled <= lookback)%Z -> build_windows lookback scaled = Ok ([], []).
Proof.
  intros H. unfold build_windows. rewrite range_empty by exact H. reflexivity.
Qed.

Lemma transform_length (sc : MinMaxScaler) (X : list Q) :
  len (transform sc X) = len X.
Proof. unfold len, transform. rewrite length_map. reflexivity. Qed.

(** C7.  When the feature column has at most [lookback] values, the loop
    of lines 59-61 builds no window on a sequence of that length,
    [np.stack] raises on the empty list, [train] ends in a ValueError (on
    an empty column already in the scaler), and no model file is
    written. *)
Theorem short_column_gives_no_model (p : params) (df : list (string * list Q))
    (X : list Q) :
  column df (feature p) = Ok X ->
  (len X <= lookback p)%Z ->
  (forall scaled : list Q, len scaled = len X ->
     build_windows (lookback p) scaled = Ok ([], [])) /\
  stack_windows (@nil (list Q)) = Raise (ValueError "need at least one array to stack") /\
  (exists msg, snd (Train.train build run_epoch p df no_artifacts) = Raise (ValueError msg)) /\
  (X <> [] ->
   snd (Train.train build run_epoch p df no_artifacts) = Raise (ValueError "need at least one array to stack")) /\
  keras_model (fst (Train.train build run_epoch p df no_artifacts)) = None.
Proof.
  intros Hcol Hshort.
  assert (Hnone : forall scaled : list Q, len scaled = len X ->
                    build_windows (lookback p) scaled = Ok ([], [])).
  { intros scaled Hl. apply no_window_when_short. rewrite Hl. exact Hshort. }
  split; [exact Hnone |]. split; [reflexivity |].
  unfold Train.train, sbind, eval, write. rewrite Hcol.
  destruct X as [| x xs].
  - cbn. split; [eexists; reflexivity |]. split; [congruence | reflexivity].
  - unfold fit_transform. rewrite fit_of_nonempty. cbn [bind].
    rewrite Hnone by apply transform_length.
    cbn. split; [eexists; reflexivity |]. split; reflexivity.
Qed.



(** X14.  A run of [train] that returns has written the three files (the
    scaler, the model and the metrics) and has tagged each with the
    feature. *)
Lemma successful_run_writes_all (p : params) (df : list (string * list Q)) :
  snd (Train.train build run_epoch p df no_artifacts) = Ok tt ->
  exists sc w h,
    fst (Train.train build run_epoch p df no_artifacts)
    = mkArtifacts (Some sc) (Some (feature p)) (Some w) (Some (feature p))
                  (Some h) (Some (feature p)).
Proof.
  pattern (Train.train build run_epoch p df no_artifacts).
  apply train_outcomes; cbn [fst snd]; try (intros; discriminate).
  intros X sc ys w h _ _ _. exists sc, w, h. reflexivity.
Qed.

End ComponentFacts.

Lemma short_column_gives_no_model_witness :
  (forall scaled : list Q, len scaled = len [1; 2; 3] ->
     build_windows (lookback (toy_params 3)) scaled = Ok ([], [])) /\
  stack_windows (@nil (list Q)) = Raise (ValueError "need at least one array to stack") /\
  (exists msg, snd (Train.train toy_build toy_run_epoch (toy_params 3)
                      (toy_table [1; 2; 3]) no_artifacts)
               = Raise (ValueError msg)) /\
  ([1; 2; 3] <> [] ->
   snd (Train.train toy_build toy_run_epoch (toy_params 3) (toy_table [1; 2; 3])
          no_artifacts)
   = Raise (ValueError "need at least one array to stack")) /\
  keras_model (fst (Train.train toy_build toy_run_epoch (toy_params 3)
                      (toy_table [1; 2; 3]) no_artifacts))
  = None.
Proof.
  apply (short_column_gives_no_model nat unit toy_build toy_run_epoch (toy_params 3)
           (toy_table [1; 2; 3]) [1; 2; 3]).
  - reflexivity.
  - unfold len. simpl. lia.
Defined.


End TrainFacts.
(* ===================================================================== *)
(** * More facts about train.py                                           *)
(* ===================================================================== *)

Module TrainMore.

Import Train PyFacts TrainFacts.

(** ** The windows *)

Section WindowMore.

Variable A : Type.

Lemma window_at_length (L : nat) (scaled : list A) (i : nat) :
  (i + L <= List.length scaled)%nat -> List.length (window_at L scaled i) = L.
Proof.
  intros H. unfold window_at. rewrite length_firstn, length_skipn. lia.
Qed.

(** X9.  With a lookback of at least 1, each window is the one before it
    moved by one step: it drops the first value of that window and takes
    its label as last value. *)
Theorem windows_slide_by_one (scaled : list A) (L : Z) :
  (1 <= L < len scaled)%Z ->
  exists x_train y_train,
    build_windows L scaled = Ok (x_train, y_train) /\
    forall (i : nat) (w : list A) (y : A),
      nth_error x_train i = Some w -> nth_error y_train i = Some y ->
      (S i < List.length x_train)%nat ->
      nth_error x_train (S i) = Some (tl w ++ [y]).
Proof.
  intros HL. unfold len in HL.
  assert (Hn : (Z.to_nat L <= List.length scaled)%nat) by lia.
  pose proof (build_windows_closed A (Z.to_nat L) scaled Hn) as Hb.
  rewrite Z2Nat.id in Hb by lia.
  eexists. eexists. split; [exact Hb |].
  intros i w y Hw Hy Hi. rewrite length_map, length_seq in Hi.
  rewrite nth_error_map, nth_error_seq in Hw |- *.
  destruct (Nat.ltb_spec i (List.length scaled - Z.to_nat L)) as [_ | Hge]; [| lia].
  destruct (Nat.ltb_spec (S i) (List.length scaled - Z.to_nat L)) as [_ | Hge]; [| lia].
  cbn [option_map Nat.add] in Hw |- *. inversion Hw; subst w; clear Hw.
  rewrite nth_error_skipn in Hy. f_equal. unfold window_at.
  destruct (nth_error scaled i) as [a |] eqn:Ea; [| apply nth_error_None in Ea; lia].
  rewrite (skipn_cons_nth _ _ _ _ Ea).
  destruct (Z.to_nat L) as [| L'] eqn:EL; [lia |].
  rewrite firstn_cons. cbn [tl]. apply firstn_snoc_nth.
  rewrite nth_error_skipn. rewrite <- Hy. f_equal. lia.
Qed.

Lemma getitem_wraps (l : list A) (i : Z) :
  (- len l <= i < len l)%Z -> exists a, getitem l i = Ok a.
Proof.
  intros H. unfold getitem.
  destruct (Z.ltb_spec i 0) as [Hneg | Hpos].
  - destruct (Z.ltb_spec (i + len l) 0) as [Hlt | _]; [lia |].
    destruct (nth_error l (Z.to_nat (i + len l))) as [a |] eqn:E.
    + exists a. reflexivity.
    + apply nth_error_None in E. unfold len in *. lia.
  - destruct (Z.ltb_spec i 0) as [Hlt | _]; [lia |].
    destruct (nth_error l (Z.to_nat i)) as [a |] eqn:E.
    + exists a. reflexivity.
    + apply nth_error_None in E. unfold len in *. lia.
Qed.

(** Where every index is in reach, the loop returns, with one slice per
    index. *)
Lemma window_loop_slices (L : Z) (scaled : list A) (todo : list Z)
    (xs : list (list A)) (ys : list A) :
  (forall i, In i todo -> (- len scaled <= i < len scaled)%Z) ->
  exists ys',
    window_loop L scaled todo xs ys
    = Ok (xs ++ map (fun i => slice scaled (i - L) i) todo, ys').
Proof.
  revert xs ys. induction todo as [| i todo IH]; intros xs ys Hall.
  - exists ys. cbn. rewrite app_nil_r. reflexivity.
  - cbn [window_loop map].
    destruct (getitem_wraps scaled i) as [a Ha]; [apply Hall; left; reflexivity |].
    rewrite Ha. cbn [bind].
    destruct (IH (xs ++ [slice scaled (i - L) i]) (ys ++ [a])) as [ys' Hy].
    { intros j Hj. apply Hall. right. exact Hj. }
    exists ys'. rewrite Hy, <- app_assoc. reflexivity.
Qed.

Lemma range_cons (lo hi : Z) :
  (lo < hi)%Z -> range lo hi = lo :: range (lo + 1) hi.
Proof.
  intros H. unfold range.
  replace (Z.to_nat (hi - lo)) with (S (Z.to_nat (hi - (lo + 1)))) by lia.
  cbn [seq map]. f_equal; [lia |].
  rewrite <- seq_shift, map_map. apply map_ext. intros k. lia.
Qed.

Lemma range_in (lo hi i : Z) : In i (range lo hi) <-> (lo <= i < hi)%Z.
Proof.
  unfold range. rewrite in_map_iff. split.
  - intros [k [<- Hk]]. apply in_seq in Hk. lia.
  - intros H. exists (Z.to_nat (i - lo)). split; [lia |]. apply in_seq. lia.
Qed.

(** A lookback below [-n] makes the first label index fall out of the
    sequence. *)
Lemma windows_index_error (L : Z) (scaled : list A) :
  (L < - len scaled)%Z ->
  build_windows L scaled = Raise (IndexError "index out of range").
Proof.
  intros H. unfold build_windows.
  rewrite range_cons by (pose proof (len_nonneg A scaled); lia).
  cbn [window_loop]. unfold getitem.
  destruct (Z.ltb_spec L 0) as [_ | Hpos]; [| pose proof (len_nonneg A scaled); lia].
  destruct (Z.ltb_spec (L + len scaled) 0) as [_ | Hge]; [reflexivity | lia].
Qed.

(** A negative lookback above [-n] gives windows of two lengths, which
    [np.stack] refuses. *)
Lemma windows_ragged (L : Z) (scaled : list A) :
  (- len scaled < L < 0)%Z ->
  exists xs ys,
    build_windows L scaled = Ok (xs, ys) /\
    stack_windows xs = Raise (ValueError "all input arrays must have the same shape").
Proof.
  intros H. unfold build_windows.
  destruct (window_loop_slices L scaled (range L (len scaled)) [] []) as [ys Hw].
  { intros i Hi. apply range_in in Hi. lia. }
  rewrite Hw. cbn [app]. eexists. exists ys. split; [reflexivity |].
  rewrite range_cons by lia. cbn [map stack_windows].
  destruct (forallb _ _) eqn:Ef; [| reflexivity].
  exfalso. rewrite forallb_forall in Ef.
  specialize (Ef (slice scaled (len scaled - 1 - L) (len scaled - 1))).
  assert (Hin : In (slice scaled (len scaled - 1 - L) (len scaled - 1))
                   (map (fun i => slice scaled (i - L) i) (range (L + 1) (len scaled)))).
  { apply in_map_iff. exists (len scaled - 1)%Z. split; [reflexivity |].
    apply range_in. lia. }
  specialize (Ef Hin). apply Nat.eqb_eq in Ef.
  revert Ef. unfold slice, clip_bound.
  replace (L - L)%Z with 0%Z by lia.
  destruct (Z.ltb_spec (len scaled - 1 - L) 0) as [Hlt | _]; [lia |].
  destruct (Z.ltb_spec (len scaled - 1) 0) as [Hlt | _]; [lia |].
  destruct (Z.ltb_spec L 0) as [_ | Hge]; [| lia].
  cbn [Z.ltb Z.compare].
  rewrite !length_firstn, !length_skipn. unfold len in *. lia.
Qed.

(** With the lookback [-n], round [a] of the loop appends an empty window
    and the value at position [a] of the sequence taken twice. *)
Lemma window_loop_minus_length (scaled : list A) (m a : nat)
    (xs : list (list A)) (ys : list A) :
  (a + m <= 2 * List.length scaled)%nat ->
  window_loop (- len scaled) scaled
    (map (fun k => (- len scaled + Z.of_nat k)%Z) (seq a m)) xs ys
  = Ok (xs ++ repeat [] m, ys ++ firstn m (skipn a (scaled ++ scaled))).
Proof.
  revert a xs ys. induction m as [| m IH]; intros a xs ys H.
  - cbn. rewrite !app_nil_r. reflexivity.
  - cbn [seq map window_loop repeat].
    assert (Hy : exists y, nth_error (scaled ++ scaled) a = Some y /\
                           getitem scaled (- len scaled + Z.of_nat a) = Ok y).
    { destruct (nth_error (scaled ++ scaled) a) as [y |] eqn:E.
      - exists y. split; [reflexivity |]. unfold getitem, len.
        destruct (Nat.lt_ge_cases a (List.length scaled)) as [Hlt | Hge].
        + rewrite nth_error_app1 in E by exact Hlt.
          destruct (Z.ltb_spec (- Z.of_nat (List.length scaled) + Z.of_nat a) 0)
            as [_ | Hp]; [| lia].
          destruct (Z.ltb_spec (- Z.of_nat (List.length scaled) + Z.of_nat a
                                + Z.of_nat (List.length scaled)) 0) as [Hn | _]; [lia |].
          replace (Z.to_nat (- Z.of_nat (List.length scaled) + Z.of_nat a
                             + Z.of_nat (List.length scaled))) with a by lia.
          rewrite E. reflexivity.
        + rewrite nth_error_app2 in E by exact Hge.
          destruct (Z.ltb_spec (- Z.of_nat (List.length scaled) + Z.of_nat a) 0)
            as [Hn | _]; [lia |].
          destruct (Z.ltb_spec (- Z.of_nat (List.length scaled) + Z.of_nat a) 0)
            as [Hn | _]; [lia |].
          replace (Z.to_nat (- Z.of_nat (List.length scaled) + Z.of_nat a))
            with (a - List.length scaled)%nat by lia.
          rewrite E. reflexivity.
      - apply nth_error_None in E. rewrite length_app in E. lia. }
    destruct Hy as [y [Hn Hg]]. rewrite Hg. cbn [bind].
    assert (Hs : slice scaled (- len scaled + Z.of_nat a - - len scaled)
                   (- len scaled + Z.of_nat a) = []).
    { unfold slice, clip_bound, len.
      destruct (Z.ltb_spec (- Z.of_nat (List.length scaled) + Z.of_nat a
                            - - Z.of_nat (List.length scaled)) 0) as [Hneg | _]; [lia |].
      destruct (Z.ltb_spec (- Z.of_nat (List.length scaled) + Z.of_nat a) 0) as [Hi | Hi].
      - match goal with
        | |- firstn (Z.to_nat ?d) _ = _ => replace (Z.to_nat d) with 0%nat by lia
        end. reflexivity.
      - match goal with
        | |- firstn (Z.to_nat ?d) _ = _ => replace (Z.to_nat d) with 0%nat by lia
        end. reflexivity. }
    rewrite Hs, IH by lia.
    rewrite <- !app_assoc. cbn [app].
    rewrite (skipn_cons_nth _ _ _ _ Hn). reflexivity.
Qed.

Lemma stack_of_empty_windows (k : nat) :
  stack_windows (repeat (@nil A) (S k)) = Ok (repeat [] (S k)).
Proof.
  cbn [repeat stack_windows].
  assert (Hall : forallb (fun b : list A => (List.length b =? List.length (@nil A))%nat)
                   (repeat [] k) = true).
  { apply forallb_forall. intros w Hw. apply repeat_spec in Hw. subst w. reflexivity. }
  rewrite Hall. reflexivity.
Qed.

(** X15.  The lookback [-n] on a sequence of [n] values is not refused:
    the loop returns [2 n] empty windows and, as labels, the sequence
    twice over, and [np.stack] accepts both lists when [n >= 1]. *)
Theorem lookback_minus_length_is_accepted (scaled : list A) :
  build_windows (- len scaled) scaled
  = Ok (repeat [] (2 * List.length scaled), scaled ++ scaled) /\
  (scaled <> [] ->
   stack_windows (repeat (@nil A) (2 * List.length scaled))
   = Ok (repeat [] (2 * List.length scaled)) /\
   stack_labels (scaled ++ scaled) = Ok (scaled ++ scaled)).
Proof.
  split.
  - unfold build_windows, range.
    replace (Z.to_nat (len scaled - - len scaled)) with (2 * List.length scaled)%nat
      by (unfold len; lia).
    rewrite window_loop_minus_length by lia. cbn [app skipn]. f_equal. f_equal.
    apply firstn_all2. rewrite length_app. lia.
  - intros Hne. destruct scaled as [| a l]; [congruence |]. split; [| reflexivity].
    replace (2 * List.length (a :: l))%nat with (S (2 * List.length l + 1))
      by (cbn [List.length]; lia).
    apply stack_of_empty_windows.
Qed.

End WindowMore.

(** Three values and the lookback -3. *)
Example windows_of_lookback_minus_three :
  build_windows (-3) [1; 2; 3]%Z = Ok ([[]; []; []; []; []; []], [1; 2; 3; 1; 2; 3]%Z).
Proof. reflexivity. Qed.

Lemma windows_slide_by_one_witness :
  exists x_train y_train,
    build_windows 3 [1; 2; 3; 4; 5; 6; 7; 8; 9; 10]%Z = Ok (x_train, y_train) /\
    forall (i : nat) (w : list Z) (y : Z),
      nth_error x_train i = Some w -> nth_error y_train i = Some y ->
      (S i < List.length x_train)%nat ->
      nth_error x_train (S i) = Some (tl w ++ [y]).
Proof.
  apply (windows_slide_by_one Z [1; 2; 3; 4; 5; 6; 7; 8; 9; 10]%Z 3%Z).
  unfold len. simpl. lia.
Defined.

(** ** The number of epochs *)

Section FitMore.

Variables Weights Optim : Type.
Variable run_epoch :
  list (list Q) -> list Q -> Z -> Q -> Weights * Optim ->
  result (Weights * Optim * epoch_logs).
Variables (x_train : list (list Q)) (y_train : list Q) (batch_size : Z).

Lemma history_after (epoch : Z) (st : fit_state Weights Optim)
    (r : Weights * Optim * epoch_logs) :
  List.length (history (after_epoch epoch st r)) = S (List.length (history st)).
Proof.
  destruct r as [[w o] logs].
  destruct (val_losses_after Weights Optim epoch st w o logs) as [Hv _].
  unfold val_losses in Hv. apply (f_equal (@List.length Q)) in Hv.
  rewrite length_app, !length_map in Hv. cbn [List.length] in Hv. lia.
Qed.

Lemma epochs_loop_length (n : nat) (epoch : Z) (st st' : fit_state Weights Optim) :
  epochs_loop run_epoch x_train y_train batch_size n epoch st = Ok st' ->
  (List.length (history st') <= List.length (history st) + n)%nat /\
  (n = 0%nat \/ stop_training st' = false ->
   List.length (history st') = (List.length (history st) + n)%nat).
Proof.
  revert epoch st. induction n as [| n IH]; intros epoch st H.
  - cbn in H. inversion H; subst. split; [lia | intros _; lia].
  - rewrite epochs_loop_step in H.
    destruct (run_epoch x_train y_train batch_size (lr st) (weights st, optim st))
      as [r | ex]; cbn [bind] in H; [| discriminate].
    pose proof (history_after epoch st r) as Hh.
    destruct (stop_training (after_epoch epoch st r)) eqn:Es.
    + inversion H; subst st'. split; [lia |].
      intros [Hn | Hs]; [discriminate Hn | congruence].
    + apply IH in H. destruct H as [H1 H2]. split; [lia |].
      intros [Hn | Hs]; [discriminate Hn |].
      destruct n as [| n'].
      * rewrite H2 by (left; reflexivity). lia.
      * rewrite H2 by (right; exact Hs). lia.
Qed.

(** X18.  A run of [fit] that returns has recorded at most [epochs]
    epochs, and exactly [epochs] of them unless early stopping has set
    [stop_training]. *)
Theorem fit_runs_at_most_epochs (epochs patience : Z) (lr0 : Q)
    (model : Weights * Optim) (st : fit_state Weights Optim) :
  fit_model run_epoch x_train y_train batch_size epochs patience lr0 model = Ok st ->
  (List.length (history st) <= Z.to_nat epochs)%nat /\
  (stop_training st = false -> List.length (history st) = Z.to_nat epochs).
Proof.
  unfold fit_model. intros H. apply epochs_loop_length in H.
  cbn [history List.length Nat.add] in H. destruct H as [H1 H2].
  split; [exact H1 |]. intros Hs.
  destruct (Z.to_nat epochs) as [| n] eqn:En.
  - apply H2. left. reflexivity.
  - apply H2. right. exact Hs.
Qed.

End FitMore.

Lemma fit_runs_at_most_epochs_witness :
  (List.length (history toy_fitted) <= Z.to_nat 10)%nat /\
  (stop_training toy_fitted = false ->
   List.length (history toy_fitted) = Z.to_nat 10).
Proof.
  apply (fit_runs_at_most_epochs nat unit toy_run_epoch [] [] 4%Z 10%Z 2%Z (1 # 100)
           (0%nat, tt) toy_fitted).
  vm_compute. reflexivity.
Defined.

(** ** The component *)

Section RunMore.

Variables Weights Optim : Type.
Variable build : Z -> Z * Z -> Q -> result (Weights * Optim).
Variable run_epoch :
  list (list Q) -> list Q -> Z -> Q -> Weights * Optim ->
  result (Weights * Optim * epoch_logs).

Lemma scaled_length (X : list Q) (sc : MinMaxScaler) (scaled : list Q) :
  fit_transform X = Ok (sc, scaled) -> len scaled = len X.
Proof.
  unfold fit_transform. destruct (fit X) as [sc' |]; cbn [bind]; [| discriminate].
  intros H. inversion H. apply transform_length.
Qed.

Lemma column_of_missing (df : list (string * list Q)) (feature : string) :
  (forall name values, In (name, values) df -> name <> feature) ->
  column df feature = Raise (KeyError feature).
Proof.
  induction df as [| [name values] rest IH]; intros H; cbn [column]; [reflexivity |].
  destruct (String.eqb_spec name feature) as [Heq | _].
  - exfalso. apply (H name values); [left; reflexivity | exact Heq].
  - apply IH. intros n v Hin. apply (H n v). right. exact Hin.
Qed.

(** X10.  When the table has no column of the name [feature], the run
    raises KeyError on that name and writes no artifact at all. *)
Theorem missing_feature_raises_key_error (p : params) (df : list (string * list Q)) :
  (forall name values, In (name, values) df -> name <> feature p) ->
  Train.train build run_epoch p df no_artifacts
  = (no_artifacts, Raise (KeyError (feature p))).
Proof.
  intros H. unfold Train.train, sbind, eval.
  rewrite (column_of_missing df (feature p) H). reflexivity.
Qed.

Lemma train_after_scaler (p : params) (df : list (string * list Q))
    (X : list Q) (sc : MinMaxScaler) (scaled : list Q) (e : exn) :
  column df (feature p) = Ok X ->
  fit_transform X = Ok (sc, scaled) ->
  (build_windows (lookback p) scaled = Raise e \/
   exists xs ys, build_windows (lookback p) scaled = Ok (xs, ys) /\
                 stack_windows xs = Raise e) ->
  Train.train build run_epoch p df no_artifacts = (only_scaler (feature p) sc, Raise e).
Proof.
  intros Hcol Hfit Hw. unfold Train.train, sbind, eval, write.
  rewrite Hcol. cbv beta iota. rewrite Hfit. cbv beta iota.
  cbn [scaler_model scaler_feature keras_model keras_feature metrics metrics_feature
       no_artifacts].
  destruct Hw as [Hw | [xs [ys [Hw Hs]]]]; rewrite Hw; cbv beta iota.
  - reflexivity.
  - rewrite Hs. reflexivity.
Qed.

(** X11.  With a lookback below minus the length of the column, the first
    label index of the loop lies before the start of the sequence: the run
    raises IndexError, after the scaler file was written and before any
    other file. *)
Theorem lookback_below_minus_length_raises (p : params) (df : list (string * list Q))
    (X : list Q) (sc : MinMaxScaler) (scaled : list Q) :
  column df (feature p) = Ok X ->
  fit_transform X = Ok (sc, scaled) ->
  (lookback p < - len X)%Z ->
  Train.train build run_epoch p df no_artifacts
  = (only_scaler (feature p) sc, Raise (IndexError "index out of range")).
Proof.
  intros Hcol Hfit HL. apply (train_after_scaler p df X sc scaled); try assumption.
  left. apply windows_index_error. rewrite (scaled_length X sc scaled Hfit). exact HL.
Qed.

(** X12.  With a negative lookback above minus the length of the column,
    the loop returns windows of two different lengths and [np.stack]
    raises ValueError: the run fails after the scaler file was written and
    before any other file. *)
Theorem negative_lookback_fails_in_stack (p : params) (df : list (string * list Q))
    (X : list Q) (sc : MinMaxScaler) (scaled : list Q) :
  column df (feature p) = Ok X ->
  fit_transform X = Ok (sc, scaled) ->
  (- len X < lookback p < 0)%Z ->
  Train.train build run_epoch p df no_artifacts
  = (only_scaler (feature p) sc,
     Raise (ValueError "all input arrays must have the same shape")).
Proof.
  intros Hcol Hfit HL. apply (train_after_scaler p df X sc scaled); try assumption.
  right. apply windows_ragged. rewrite (scaled_length X sc scaled Hfit). exact HL.
Qed.

Lemma stack_of_windows (L k : nat) (scaled : list Q) :
  (1 <= k)%nat -> (k + L <= List.length scaled)%nat ->
  stack_windows (map (window_at L scaled) (seq 0 k))
  = Ok (map (window_at L scaled) (seq 0 k)) /\
  len (hd [] (map (window_at L scaled) (seq 0 k))) = Z.of_nat L.
Proof.
  intros Hk Hlen. destruct k as [| k]; [lia |]. cbn [seq map stack_windows hd].
  assert (Hall : forallb (fun b => (List.length b =? List.length (window_at L scaled 0))%nat)
                   (map (window_at L scaled) (seq 1 k)) = true).
  { apply forallb_forall. intros w Hw. apply in_map_iff in Hw.
    destruct Hw as [i [<- Hi]]. apply in_seq in Hi. apply Nat.eqb_eq.
    rewrite !window_at_length by lia. reflexivity. }
  rewrite Hall. split; [reflexivity |]. unfold len.
  rewrite window_at_length by lia. reflexivity.
Qed.

(** X13.  The run of [train] on a column with more values than the
    lookback (which is not negative): when the network can be built for
    the input shape [(lookback, 1)] and [fit] returns on the windows of
    the scaled column and their labels, the run returns, having written
    the fitted scaler, the history of [fit] as metrics and the parameters
    [fit] ended with as model, each tagged with the feature. *)
Theorem train_composes (p : params) (df : list (string * list Q))
    (X : list Q) (sc : MinMaxScaler) (scaled : list Q)
    (model : Weights * Optim) (st : fit_state Weights Optim) :
  column df (feature p) = Ok X ->
  fit_transform X = Ok (sc, scaled) ->
  (0 <= lookback p < len X)%Z ->
  build (lstm_units p) (lookback p, 1%Z) (learning_rate p) = Ok model ->
  fit_model run_epoch
    (map (window_at (Z.to_nat (lookback p)) scaled)
         (seq 0 (List.length scaled - Z.to_nat (lookback p))))
    (skipn (Z.to_nat (lookback p)) scaled)
    (batch_size p) (epochs p) (patience p) (learning_rate p) model = Ok st ->
  Train.train build run_epoch p df no_artifacts
  = (mkArtifacts (Some sc) (Some (feature p)) (Some (weights st)) (Some (feature p))
                 (Some (history st)) (Some (feature p)),
     Ok tt).
Proof.
  intros Hcol Hfit HL Hbuild Hrun.
  pose proof (scaled_length X sc scaled Hfit) as Hlen. unfold len in Hlen, HL.
  unfold Train.train, sbind, eval, write.
  rewrite Hcol. cbv beta iota. rewrite Hfit. cbv beta iota.
  cbn [scaler_model scaler_feature keras_model keras_feature metrics metrics_feature
       no_artifacts].
  rewrite <- (Z2Nat.id (lookback p)) at 1 by lia.
  rewrite build_windows_closed by lia. cbv beta iota.
  destruct (stack_of_windows (Z.to_nat (lookback p))
              (List.length scaled - Z.to_nat (lookback p)) scaled) as [Hs Hshape];
    [lia | lia |].
  rewrite Hs. cbv beta iota.
  destruct (skipn (Z.to_nat (lookback p)) scaled) as [| y0 ys0] eqn:Ey.
  { exfalso. assert (Hl : List.length (skipn (Z.to_nat (lookback p)) scaled) = 0%nat)
      by (rewrite Ey; reflexivity).
    rewrite length_skipn in Hl. lia. }
  cbn [stack_labels]. cbv beta iota.
  rewrite Hshape, Z2Nat.id by lia. rewrite Hbuild. cbv beta iota.
  rewrite Hrun. reflexivity.
Qed.

End RunMore.

Lemma missing_feature_raises_key_error_witness :
  Train.train toy_build toy_run_epoch
    (mkParams "flow" 2 8 (1 # 100) 10 4 2) (toy_table [1; 2; 3; 4]) no_artifacts
  = (no_artifacts, Raise (KeyError (feature (mkParams "flow" 2 8 (1 # 100) 10 4 2)))).
Proof.
  apply (missing_feature_raises_key_error nat unit toy_build toy_run_epoch
           (mkParams "flow" 2 8 (1 # 100) 10 4 2) (toy_table [1; 2; 3; 4])).
  intros name values [H | [H | []]]; inversion H; discriminate.
Defined.

Lemma lookback_below_minus_length_raises_witness :
  Train.train toy_build toy_run_epoch (toy_params (-5)) (toy_table [1; 2; 3; 4])
    no_artifacts
  = (only_scaler (feature (toy_params (-5))) (fst toy_scaled),
     Raise (IndexError "index out of range")).
Proof.
  apply (lookback_below_minus_length_raises nat unit toy_build toy_run_epoch
           (toy_params (-5)) (toy_table [1; 2; 3; 4]) [1; 2; 3; 4]
           (fst toy_scaled) (snd toy_scaled)).
  - reflexivity.
  - vm_compute. reflexivity.
  - unfold len. simpl. lia.
Defined.

Lemma negative_lookback_fails_in_stack_witness :
  Train.train toy_build toy_run_epoch (toy_params (-2)) (toy_table [1; 2; 3; 4])
    no_artifacts
  = (only_scaler (feature (toy_params (-2))) (fst toy_scaled),
     Raise (ValueError "all input arrays must have the same shape")).
Proof.
  apply (negative_lookback_fails_in_stack nat unit toy_build toy_run_epoch
           (toy_params (-2)) (toy_table [1; 2; 3; 4]) [1; 2; 3; 4]
           (fst toy_scaled) (snd toy_scaled)).
  - reflexivity.
  - vm_compute. reflexivity.
  - unfold len. simpl. lia.
Defined.

Lemma train_composes_witness :
  Train.train toy_build toy_run_epoch (toy_params 2) (toy_table [1; 2; 3; 4])
    no_artifacts
  = (mkArtifacts (Some (fst toy_scaled)) (Some (feature (toy_params 2)))
                 (Some (weights toy_fitted)) (Some (feature (toy_params 2)))
                 (Some (history toy_fitted)) (Some (feature (toy_params 2))),
     Ok tt).
Proof.
  apply (train_composes nat unit toy_build toy_run_epoch (toy_params 2)
           (toy_table [1; 2; 3; 4]) [1; 2; 3; 4] (fst toy_scaled) (snd toy_scaled)
           (0%nat, tt) toy_fitted).
  - reflexivity.
  - vm_compute. reflexivity.
  - unfold len. simpl. lia.
  - reflexivity.
  - vm_compute. reflexivity.
Defined.

Lemma successful_run_writes_all_witness :
  exists sc w h,
    fst (Train.train toy_build toy_run_epoch (toy_params 2) (toy_table [1; 2; 3; 4])
           no_artifacts)
    = mkArtifacts (Some sc) (Some (feature (toy_params 2))) (Some w)
                  (Some (feature (toy_params 2))) (Some h)
                  (Some (feature (toy_params 2))).
Proof.
  apply (successful_run_writes_all nat unit toy_build toy_run_epoch (toy_params 2)
           (toy_table [1; 2; 3; 4])).
  vm_compute. reflexivity.
Defined.

(** The run on the values 1, 2, 3, 4 with a lookback of 2: the model kept
    is the one of the best epoch of the small instance. *)
Example toy_run_keeps_best_epoch :
  keras_model (fst (Train.train toy_build toy_run_epoch (toy_params 2)
                      (toy_table [1; 2; 3; 4]) no_artifacts))
  = Some 3%nat.
Proof. vm_compute. reflexivity. Qed.

End TrainMore.
